(** * devflow.versioning: version computation for a git-flow repository

    A shallow embedding of [src/devflow/versioning.py]: the branch
    classifier ([normalize_branch_name], [get_branch_type]), the registry
    [BRANCH_TYPES], the commit identifier ([get_commit_id]), the generator
    ([python_version]) and the mapping to Debian package versions
    ([debian_version_from_python_version]).

    Python [str] values are [string]s (sequences of bytes, as in Python 2),
    the revision number is an [N], exceptions are values of [exn] returned
    in the [Raise] branch of [result]. *)

From Stdlib Require Import Strings.String Strings.Ascii Lists.List.
From Stdlib Require Import ZArith NArith Arith Bool Lia.
From Stdlib Require Import Numbers.DecimalString Numbers.DecimalPos Numbers.DecimalN.
Import ListNotations.

Local Open Scope string_scope.
Local Open Scope list_scope.

(** ** Python built-ins used by the module *)

Module Py.

(** [s.startswith(p)] *)
Definition startswith (s p : string) : bool := String.prefix p s.

(** [s[n:]] *)
Fixpoint drop (n : nat) (s : string) : string :=
  match n, s with
  | O, _ => s
  | S _, EmptyString => EmptyString
  | S n', String _ s' => drop n' s'
  end.

(** [s[0:n]] *)
Definition slice_to (n : nat) (s : string) : string := String.substring 0 n s.

(** [c in s] for a one-character string [c]. *)
Fixpoint contains_char (c : ascii) (s : string) : bool :=
  match s with
  | EmptyString => false
  | String a s' => if Ascii.eqb a c then true else contains_char c s'
  end.

(** [s.split(sep)] for a one-character separator: the list of the pieces
    between the separators, never empty. *)
Fixpoint split (sep : ascii) (s : string) : list string :=
  match s with
  | EmptyString => [EmptyString]
  | String a s' =>
      if Ascii.eqb a sep then EmptyString :: split sep s'
      else match split sep s' with
           | piece :: pieces => String a piece :: pieces
           | [] => [String a EmptyString]
           end
  end.

(** [s.replace(old, new, count)] for a non-empty [old]: the occurrences
    of [old] are found from the left and do not overlap; at most [count]
    of them are replaced ([None]: all of them).  [skip] counts the
    characters of an occurrence just replaced that are still to be
    dropped. *)
Fixpoint replace_from (old new : string) (count : option nat) (skip : nat)
         (s : string) : string :=
  match s with
  | EmptyString => EmptyString
  | String a s' =>
      match skip with
      | S k => replace_from old new count k s'
      | O =>
          match count with
          | Some O => s
          | _ =>
              if String.prefix old s
              then new ++ replace_from old new (option_map Nat.pred count)
                                       (Nat.pred (String.length old)) s'
              else String a (replace_from old new count O s')
          end
      end
  end.

Definition replace (old new : string) (count : option nat) (s : string) : string :=
  replace_from old new count O s.

(** ["%d" % n] for a non-negative integer *)
Definition str_of_int (n : N) : string := NilZero.string_of_uint (N.to_uint n).

Definition is_digit (c : ascii) : bool :=
  (Ascii.leb "0" c && Ascii.leb c "9")%char.

End Py.

(** ** Results and exceptions *)

Inductive result (E A : Type) : Type :=
| Return (a : A)
| Raise (e : E).
Arguments Return {E A} a.
Arguments Raise {E A} e.

Definition bind {E A B} (m : result E A) (k : A -> result E B) : result E B :=
  match m with
  | Return a => k a
  | Raise e => Raise e
  end.

Notation "x <- m ;; k" := (bind m (fun x => k))
  (at level 61, m at next level, right associativity).

(** The [raise] statements of the module, one constructor per statement,
    with the values that the message quotes. *)
Inductive exn : Type :=
| Malformed_branch_name (btypestr : string)
    (* ValueError "Malformed branch name '%s', cannot classify as one of %s" *)
| Branch_should_contain_version (branch : string)
    (* ValueError "Branch name '%s' should contain version" *)
| Malformed_version (bverstr branch : string)
    (* ValueError "Malformed version '%s' in branch name '%s'" *)
| Base_version_unsuitable (base_version branch : string)
    (* ValueError "Base version '%s' unsuitable for branch name '%s'" *)
| Mode_should_be_one_of (mode : string)
    (* ValueError "Specified mode '%s' should be one of 'snapshot' or 'release'" *)
| Invalid_mode_in_branch_type (mode btypestr : string)
    (* ValueError "Invalid mode '%s' in branch type '%s'" *)
| More_than_2_parents (hexsha : string)
    (* RuntimeError "Commit %s has more than 2 parents!" *)
| KeyError (key : string)
    (* m.groupdict()[key] for a pattern without that group *)
| AttributeError (name : string).
    (* an attribute of [None], where [vcs_info()] returned it *)

(** The raise statement an exception comes from: what a caller can tell
    apart without reading the quoted values. *)
Inductive raise_site : Type :=
| site_malformed_branch_name
| site_branch_should_contain_version
| site_malformed_version
| site_base_version_unsuitable
| site_mode_should_be_one_of
| site_invalid_mode_in_branch_type
| site_more_than_2_parents
| site_key_error
| site_attribute_error.

Definition site (e : exn) : raise_site :=
  match e with
  | Malformed_branch_name _ => site_malformed_branch_name
  | Branch_should_contain_version _ => site_branch_should_contain_version
  | Malformed_version _ _ => site_malformed_version
  | Base_version_unsuitable _ _ => site_base_version_unsuitable
  | Mode_should_be_one_of _ => site_mode_should_be_one_of
  | Invalid_mode_in_branch_type _ _ => site_invalid_mode_in_branch_type
  | More_than_2_parents _ => site_more_than_2_parents
  | KeyError _ => site_key_error
  | AttributeError _ => site_attribute_error
  end.

Inductive exn_class : Type :=
  ValueError | RuntimeError | KeyError_class | AttributeError_class.

Definition class_of (e : exn) : exn_class :=
  match e with
  | More_than_2_parents _ => RuntimeError
  | KeyError _ => KeyError_class
  | AttributeError _ => AttributeError_class
  | _ => ValueError
  end.

(** What a caller observes of a call when the quoted values of the message
    are left aside: the value returned, or the raise statement reached. *)
Definition outcome {A} (r : result exn A) : result raise_site A :=
  match r with
  | Return a => Return a
  | Raise e => Raise (site e)
  end.

(** ** Regular expressions

    The fragment of Python's [re] that the module's patterns use, with the
    semantics of a backtracking matcher: [run] lists the ways a pattern
    matches at the current position in the order the matcher tries them
    (a greedy repetition tries the longest first), and [re_match] keeps
    the first one. *)

Module Re.

Inductive regex : Type :=
| Eps
| Lit (c : ascii)                       (* a literal character, [\.] *)
| Range (lo hi : ascii)                 (* [[lo-hi]] *)
| Cat (r1 r2 : regex)
| Star (r : regex)                      (* [r*], greedy *)
| Group (name : option string) (r : regex)  (* [(r)] or [(?P<name>r)] *)
| Bol                                   (* [^] *)
| Eol.                                  (* [$] *)

(** [r+] *)
Definition Plus (r : regex) : regex := Cat r (Star r).

(** a literal word *)
Fixpoint Word (s : string) : regex :=
  match s with
  | EmptyString => Eps
  | String c s' => Cat (Lit c) (Word s')
  end.

Record state : Type := mkState {
  at_start : bool;                      (* no character consumed yet *)
  rest : string;                        (* the text still to match *)
  groups : list (string * string)       (* named groups, last matched first *)
}.

Definition step_char (ok : ascii -> bool) (st : state) : list state :=
  match rest st with
  | String a s' => if ok a then [mkState false s' (groups st)] else []
  | EmptyString => []
  end.

Definition consumed (before after : state) : string :=
  Py.slice_to (String.length (rest before) - String.length (rest after)) (rest before).

Definition close_group (name : option string) (before after : state) : state :=
  match name with
  | Some n => mkState (at_start after) (rest after)
                      ((n, consumed before after) :: groups after)
  | None => after
  end.

Definition newline : ascii := "010"%char.

Fixpoint run (r : regex) (st : state) : list state :=
  match r with
  | Eps => [st]
  | Lit c => step_char (Ascii.eqb c) st
  | Range lo hi => step_char (fun a => Ascii.leb lo a && Ascii.leb a hi) st
  | Cat r1 r2 => flat_map (run r2) (run r1 st)
  | Star r' =>
      (fix iterate (fuel : nat) (st : state) {struct fuel} : list state :=
         match fuel with
         | O => [st]
         | S fuel' =>
             flat_map (fun st' =>
                         if Nat.ltb (String.length (rest st')) (String.length (rest st))
                         then iterate fuel' st' else [])
                      (run r' st)
             ++ [st]
         end) (String.length (rest st)) st
  | Group name r' => map (close_group name st) (run r' st)
  | Bol => if at_start st then [st] else []
  | Eol => match rest st with
           | EmptyString => [st]
           | String a EmptyString => if Ascii.eqb a newline then [st] else []
           | _ => []
           end
  end.

(** [re.match(r, s)]: the match object, reduced to its named groups. *)
Definition re_match (r : regex) (s : string) : option (list (string * string)) :=
  match run r (mkState true s []) with
  | st :: _ => Some (groups st)
  | [] => None
  end.

Fixpoint group_names (r : regex) : list string :=
  match r with
  | Cat r1 r2 => group_names r1 ++ group_names r2
  | Star r' => group_names r'
  | Group (Some n) r' => n :: group_names r'
  | Group None r' => group_names r'
  | _ => []
  end.

Fixpoint assoc (k : string) (l : list (string * string)) : option string :=
  match l with
  | [] => None
  | (k', v) :: l' => if String.eqb k' k then Some v else assoc k l'
  end.

(** [m.groupdict()[name]] for a match [m] of [r]: the text of the group,
    [None] for a group that took no part in the match, [KeyError] for a
    name that is no group of [r]. *)
Definition groupdict_get (r : regex) (m : list (string * string)) (name : string)
  : result exn (option string) :=
  if existsb (String.eqb name) (group_names r)
  then Return (assoc name m)
  else Raise (KeyError name).

End Re.

Import Re.

(** ** The registry of branch types *)

Record branch_type : Type := mk_branch_type {
  builds_snapshot : bool;
  builds_release : bool;
  versioned : bool;
  allowed_version_re : regex
}.

Definition digits : regex := Plus (Range "0" "9").

(** ["[0-9]+\.[0-9]+(\.[0-9]+)*"] *)
Definition VERSION_RE : regex :=
  Cat digits (Cat (Lit ".") (Cat digits (Star (Group None (Cat (Lit ".") digits))))).

(** ["[1-9][0-9]*"] *)
Definition positive : regex := Cat (Range "1" "9") (Star (Range "0" "9")).

Definition BRANCH_TYPES : list (string * branch_type) :=
  [ ("feature", mk_branch_type true false false
       (Cat Bol (Cat VERSION_RE (Cat (Word "next") Eol))));
    ("develop", mk_branch_type true false false
       (Cat Bol (Cat VERSION_RE (Cat (Word "next") Eol))));
    ("release", mk_branch_type true true true
       (Cat Bol (Cat (Group (Some "bverstr") VERSION_RE)
                     (Cat (Word "rc") (Cat positive Eol)))));
    ("master", mk_branch_type false true false
       (Cat Bol (Cat VERSION_RE Eol)));
    ("hotfix", mk_branch_type true true true
       (Cat Bol (Cat (Group (Some "bverstr")
                            (Cat Bol (Cat VERSION_RE (Cat (Lit ".") positive))))
                     Eol))) ].

(** [d[key]] of a dict given by its items; [None] is Python's [KeyError]. *)
Fixpoint dict_get {A} (d : list (string * A)) (key : string) : option A :=
  match d with
  | [] => None
  | (k, a) :: d' => if String.eqb k key then Some a else dict_get d' key
  end.

(** ** Commit identifiers *)

#[local] Set Warnings "-register-all".

Inductive commit : Type :=
| Commit (hexsha : string) (parents : list commit).

Definition hexsha (c : commit) : string := let (h, _) := c in h.
Definition parents (c : commit) : list commit := let (_, ps) := c in ps.

Definition short_id (c : commit) : string := Py.slice_to 7 (hexsha c).

(** [current_branch] is given by its name. *)
Definition get_commit_id (c : commit) (cur_br_name : string) : result exn string :=
  match parents c with
  | [_] => Return (short_id c)
  | [pr1; pr2] =>
      if Py.startswith cur_br_name "debian-" || String.eqb cur_br_name "debian"
      then Return (short_id pr1 ++ "-" ++ short_id pr2)%string
      else Return (short_id c)
  | _ => Raise (More_than_2_parents (hexsha c))
  end.

(** ** The branch classifier *)

Definition normalize_branch_name (branch_name : string) : string :=
  let brnorm := branch_name in
  let brnorm := if String.eqb brnorm "debian" then "debian-master" else brnorm in
  if Py.startswith brnorm "debian-"
  then Py.replace "debian-" "" (Some 1) brnorm
  else brnorm.

Definition get_branch_type (branch_name : string) : string :=
  if Py.contains_char "-" branch_name
  then hd EmptyString (Py.split "-" branch_name)
  else branch_name.

(** ** The generator *)

(** The named tuple that [vcs_info()] returns. *)
Record info : Type := mk_info {
  branch : string;
  revid : string;
  revno : N;
  toplevel : string
}.

Definition opt_eqb (g : option string) (s : string) : bool :=
  match g with
  | Some t => String.eqb t s
  | None => false
  end.

Definition python_version (base_version : string) (v : info) (mode : string)
  : result exn string :=
  let branch := branch v in
  let brnorm := normalize_branch_name branch in
  let btypestr := get_branch_type brnorm in
  btype <- match dict_get BRANCH_TYPES btypestr with
           | Some bt => Return bt
           | None => Raise (Malformed_branch_name btypestr)
           end ;;
  (* [bverstr] is bound, and read, only on a versioned branch *)
  bverstr <- (if versioned btype then
                match nth_error (Py.split "-" brnorm) 1 with
                | None => Raise (Branch_should_contain_version branch)
                | Some bverstr =>
                    match re_match VERSION_RE bverstr with
                    | None => Raise (Malformed_version bverstr branch)
                    | Some _ => Return bverstr
                    end
                end
              else Return EmptyString) ;;
  mismatch <- match re_match (allowed_version_re btype) base_version with
              | None => Return true
              | Some m =>
                  if versioned btype then
                    g <- groupdict_get (allowed_version_re btype) m "bverstr" ;;
                    Return (negb (opt_eqb g bverstr))
                  else Return false
              end ;;
  if mismatch : bool then Raise (Base_version_unsuitable base_version branch) else
  if negb (String.eqb mode "snapshot" || String.eqb mode "release")
  then Raise (Mode_should_be_one_of mode) else
  let snap := String.eqb mode "snapshot" in
  if (snap && negb (builds_snapshot btype)) || (negb snap && negb (builds_release btype))
  then Raise (Invalid_mode_in_branch_type mode btypestr) else
  if snap
  then Return (base_version ++ "_" ++ Py.str_of_int (revno v) ++ "_" ++ revid v)%string
  else Return base_version.

(** ** The package version *)

Definition debian_version_from_python_version (pyver : string) : string :=
  (Py.replace "rc" "~rc" None (Py.replace "_" "~" None pyver) ++ "-1")%string.

Definition debian_version (base_version : string) (v : info) (mode : string)
  : result exn string :=
  p <- python_version base_version v mode ;;
  Return (debian_version_from_python_version p).

(** ** Entry points

    [vcs_info()] reads the repository of the current directory: here the
    repository is a value, [None] where the directory is not in one
    ([git.InvalidGitRepositoryError]).  The version file and the
    environment variable [GITFLOW_BUILD_MODE] are read after it; what
    they yield is left open. *)

Record Repo : Type := mk_repo {
  head_name : string;                     (* repo.head.reference.name *)
  head_commit : commit;                   (* repo.head.reference.commit *)
  iter_commits : list commit;
  working_dir : string
}.

Definition vcs_info (cwd : option Repo) : result exn (option info) :=
  match cwd with
  | None => Return None
  | Some repo =>
      revid <- get_commit_id (head_commit repo) (head_name repo) ;;
      let revno := N.of_nat (List.length (iter_commits repo)) in
      Return (Some (mk_info (head_name repo) revid revno (working_dir repo)))
  end.

Section EntryPoints.

(** The single non-comment line of [<toplevel>/version], or the exception
    of [base_version]. *)
Variable read_version_file : string -> result exn string.

(** What [build_mode()] returns or raises. *)
Variable build_mode : result exn string.

Definition base_version (v : option info) : result exn string :=
  match v with
  | Some i => read_version_file (toplevel i)
  | None => Raise (AttributeError "toplevel")
  end.

Definition get_python_version (cwd : option Repo) : result exn string :=
  v <- vcs_info cwd ;;
  b <- base_version v ;;
  mode <- build_mode ;;
  match v with
  | Some i => python_version b i mode
  | None => Raise (AttributeError "branch")
  end.

Definition get_debian_version (cwd : option Repo) : result exn string :=
  v <- vcs_info cwd ;;
  b <- base_version v ;;
  mode <- build_mode ;;
  match v with
  | Some i => debian_version b i mode
  | None => Raise (AttributeError "branch")
  end.

End EntryPoints.

(** ** The conditions of the specification

    The nine names under which the specification lists the failures. *)

Inductive condition : Type :=
| UnknownBranchType
| MalformedBranchName
| MissingBranchVersion
| MalformedBranchVersion
| IncompatibleBaseVersion
| BaseVersionBranchMismatch
| InvalidMode
| ModeNotAllowedForBranchType
| UnsupportedCommitTopology.

(** ** The two version orders

    The doctests of the module compare versions with [V] and [D]; neither
    is defined in the repository. *)

Module Setuptools.

Definition is_lower (c : ascii) : bool := (Ascii.leb "a" c && Ascii.leb c "z")%char.
Definition is_upper (c : ascii) : bool := (Ascii.leb "A" c && Ascii.leb c "Z")%char.

Definition lower_char (c : ascii) : ascii :=
  if is_upper c then ascii_of_nat (nat_of_ascii c + 32) else c.

Fixpoint lower (s : string) : string :=
  match s with
  | EmptyString => EmptyString
  | String c s' => String (lower_char c) (lower s')
  end.

Inductive kind : Type := Digits | Letters | Dot | Dash | Other.

Definition kind_of (c : ascii) : kind :=
  if Py.is_digit c then Digits
  else if is_lower c then Letters
  else if Ascii.eqb c "." then Dot
  else if Ascii.eqb c "-" then Dash
  else Other.

(** Does [c] continue the component that [t] starts?  Runs of digits and
    runs of letters are one component each, as is the text between two
    components; a dot or a dash is a component of its own. *)
Definition joins (c : ascii) (t : string) : bool :=
  match t with
  | EmptyString => false
  | String a _ =>
      match kind_of c, kind_of a with
      | Digits, Digits | Letters, Letters | Other, Other => true
      | _, _ => false
      end
  end.

(** Modelled from the spec: the components into which the setuptools
    comparison of section 4.3 cuts a version string (setuptools'
    [component_re.split], with [component_re] = [(\d+|[a-z]+|\.|-)];
    the empty pieces, which the next step skips, are left out). *)
Fixpoint components (s : string) : list string :=
  match s with
  | EmptyString => []
  | String c s' =>
      match components s' with
      | t :: ts => if joins c t then String c t :: ts
                   else String c EmptyString :: t :: ts
      | [] => [String c EmptyString]
      end
  end.

Definition replace_part (part : string) : string :=
  if String.eqb part "pre" then "c"
  else if String.eqb part "preview" then "c"
  else if String.eqb part "-" then "final-"
  else if String.eqb part "rc" then "c"
  else if String.eqb part "dev" then "@"
  else part.

Fixpoint zeros (n : nat) : string :=
  match n with
  | O => EmptyString
  | S n' => String "0" (zeros n')
  end.

(** [s.zfill(width)] for a string of digits *)
Definition zfill (width : nat) (s : string) : string :=
  (zeros (width - String.length s) ++ s)%string.

Definition parse_part (part : string) : list string :=
  let part := replace_part part in
  match part with
  | EmptyString => []
  | String c _ =>
      if String.eqb part "." then []
      else if Py.is_digit c then [zfill 8 part]
      else [("*" ++ part)%string]
  end.

Definition _parse_version_parts (s : string) : list string :=
  flat_map parse_part (components s) ++ ["*final"].

(** [while parts and parts[-1] == x: parts.pop()], on the reversed list *)
Fixpoint pop_while (x : string) (rev_parts : list string) : list string :=
  match rev_parts with
  | p :: ps => if String.eqb p x then pop_while x ps else rev_parts
  | [] => []
  end.

Definition push (rev_parts : list string) (part : string) : list string :=
  let rev_parts :=
    if Py.startswith part "*" then
      let rev_parts :=
        if String.ltb part "*final" then pop_while "*final-" rev_parts
        else rev_parts in
      pop_while "00000000" rev_parts
    else rev_parts in
  part :: rev_parts.

(** Modelled from the spec: the key of the setuptools comparison, [V] in
    the doctests of [python_version] (setuptools' [parse_version], the
    algorithm that PEP 386 describes under the heading the docstring
    cites): numbers padded to eight digits, words prefixed by [*], a
    closing [*final], zero components dropped before a word. *)
Definition parse_version (s : string) : list string :=
  rev (fold_left push (_parse_version_parts (lower s)) []).

(** The order of Python tuples of strings. *)
Fixpoint tuple_compare (a b : list string) : comparison :=
  match a, b with
  | [], [] => Eq
  | [], _ :: _ => Lt
  | _ :: _, [] => Gt
  | x :: a', y :: b' =>
      match String.compare x y with
      | Eq => tuple_compare a' b'
      | c => c
      end
  end.

Definition compare (a b : string) : comparison :=
  tuple_compare (parse_version a) (parse_version b).

(** [V(a) < V(b)] *)
Definition lt (a b : string) : Prop := compare a b = Lt.

End Setuptools.

Module Debian.

Definition is_alpha (c : ascii) : bool :=
  Setuptools.is_lower c || Setuptools.is_upper c.

(** The weight of a character in the lexical comparison: the letters
    sort before the other characters, a tilde before everything, the end
    of a part included; a digit ends the part. *)
Definition order (c : option ascii) : Z :=
  match c with
  | None => 0%Z
  | Some c =>
      if Py.is_digit c then 0%Z
      else if is_alpha c then Z.of_nat (nat_of_ascii c)
      else if Ascii.eqb c "~" then (-1)%Z
      else (Z.of_nat (nat_of_ascii c) + 256)%Z
  end.

Definition head (s : string) : option ascii :=
  match s with
  | EmptyString => None
  | String c _ => Some c
  end.

Definition tail (s : string) : string :=
  match s with
  | EmptyString => EmptyString
  | String _ s' => s'
  end.

Definition starts_non_digit (s : string) : bool :=
  match s with
  | EmptyString => false
  | String c _ => negb (Py.is_digit c)
  end.

(** The leading digits of [s] as a number (zero when there are none),
    and what follows them. *)
Fixpoint number (acc : N) (s : string) : N * string :=
  match s with
  | String c s' =>
      if Py.is_digit c
      then number (10 * acc + N.of_nat (nat_of_ascii c - 48))%N s'
      else (acc, s)
  | EmptyString => (acc, s)
  end.

(** Modelled from the spec: the comparison of two upstream versions or
    two revisions in the target packaging system of section 4.4 (the
    algorithm of the Debian policy manual, the page that the docstring
    of [debian_version_from_python_version] cites): non-digit parts are
    compared lexically by [order], digit parts by value, in turns. *)
Fixpoint verrevcmp (fuel : nat) (a b : string) : comparison :=
  match fuel with
  | O => Eq
  | S fuel' =>
      match a, b with
      | EmptyString, EmptyString => Eq
      | _, _ =>
          if starts_non_digit a || starts_non_digit b then
            match Z.compare (order (head a)) (order (head b)) with
            | Eq => verrevcmp fuel' (tail a) (tail b)
            | c => c
            end
          else
            let (na, a') := number 0 a in
            let (nb, b') := number 0 b in
            match N.compare na nb with
            | Eq => verrevcmp fuel' a' b'
            | c => c
            end
      end
  end.

Definition part_compare (a b : string) : comparison :=
  verrevcmp (S (String.length a + String.length b)) a b.

(** [s] cut at its first [c] *)
Fixpoint cut_first (c : ascii) (s : string) : option (string * string) :=
  match s with
  | EmptyString => None
  | String a s' =>
      if Ascii.eqb a c then Some (EmptyString, s')
      else match cut_first c s' with
           | Some (u, r) => Some (String a u, r)
           | None => None
           end
  end.

(** [s] cut at its last [c] *)
Fixpoint cut_last (c : ascii) (s : string) : option (string * string) :=
  match s with
  | EmptyString => None
  | String a s' =>
      match cut_last c s' with
      | Some (u, r) => Some (String a u, r)
      | None => if Ascii.eqb a c then Some (EmptyString, s') else None
      end
  end.

Record version : Type := mk_version {
  epoch : string;
  upstream_version : string;
  debian_revision : string
}.

(** [epoch:upstream-revision]: the epoch ends at the first colon, the
    revision starts after the last hyphen; an absent epoch or revision
    compares as zero. *)
Definition parse (s : string) : version :=
  let (e, s') := match cut_first ":" s with
                 | Some (e, s') => (e, s')
                 | None => ("0", s)
                 end in
  let (u, r) := match cut_last "-" s' with
                | Some (u, r) => (u, r)
                | None => (s', "0")
                end in
  mk_version e u r.

(** Modelled from the spec: the comparison of package versions in the
    target packaging system, [D] in the doctests of
    [debian_version_from_python_version]. *)
Definition compare (a b : string) : comparison :=
  let va := parse a in
  let vb := parse b in
  match part_compare (epoch va) (epoch vb) with
  | Eq =>
      match part_compare (upstream_version va) (upstream_version vb) with
      | Eq => part_compare (debian_revision va) (debian_revision vb)
      | c => c
      end
  | c => c
  end.

(** [D(a) < D(b)] *)
Definition lt (a b : string) : Prop := compare a b = Lt.

End Debian.

(** ** The shape of a version, in the words of the specification *)

Definition all_digits (s : string) : bool :=
  match s with
  | EmptyString => false
  | _ => forallb Py.is_digit (list_ascii_of_string s)
  end.

(** The specification's [<semver>]: groups of digits separated by dots, at
    least two of them. *)
Definition is_semver (s : string) : bool :=
  let groups := Py.split "." s in
  Nat.leb 2 (List.length groups) && forallb all_digits groups.

(** The raise statements of [python_version]. *)
Definition python_version_sites : list raise_site :=
  [ site_malformed_branch_name;
    site_branch_should_contain_version;
    site_malformed_version;
    site_base_version_unsuitable;
    site_mode_should_be_one_of;
    site_invalid_mode_in_branch_type ].

(** The name under which a call is reported, for a naming [name] of the
    raise statements. *)
Definition reported {A} (name : raise_site -> condition) (r : result exn A)
  : option condition :=
  match r with
  | Return _ => None
  | Raise e => Some (name (site e))
  end.

(** ** Alphabets of patterns *)

Fixpoint all_chars (P : ascii -> bool) (s : string) : bool :=
  match s with
  | EmptyString => true
  | String a s' => P a && all_chars P s'
  end.

(** Every character that [r] can consume satisfies [P]. *)
Fixpoint within (P : ascii -> bool) (r : regex) : Prop :=
  match r with
  | Lit c => P c = true
  | Range lo hi => forall a, Ascii.leb lo a && Ascii.leb a hi = true -> P a = true
  | Cat r1 r2 => within P r1 /\ within P r2
  | Star r' => within P r'
  | Group _ r' => within P r'
  | Eps | Bol | Eol => True
  end.

(** Every named group of [r] consumes characters that satisfy [P] only. *)
Fixpoint named_within (P : ascii -> bool) (r : regex) : Prop :=
  match r with
  | Cat r1 r2 => named_within P r1 /\ named_within P r2
  | Star r' => named_within P r'
  | Group (Some _) r' => within P r' /\ named_within P r'
  | Group None r' => named_within P r'
  | _ => True
  end.

Definition groups_within (P : ascii -> bool) (st : state) : Prop :=
  forall n g, In (n, g) (groups st) -> all_chars P g = true.

Definition digit_or_dot (a : ascii) : bool := Py.is_digit a || Ascii.eqb a ".".

Definition no_tilde (a : ascii) : bool := negb (Ascii.eqb a "~").

(** The last thing that [r] asks for is the end of the text. *)
Fixpoint ends_with_eol (r : regex) : Prop :=
  match r with
  | Eol => True
  | Cat _ r2 => ends_with_eol r2
  | _ => False
  end.

(** [e] with the branch name that its message quotes replaced by [br]. *)
Definition requote (br : string) (e : exn) : exn :=
  match e with
  | Branch_should_contain_version _ => Branch_should_contain_version br
  | Malformed_version bverstr _ => Malformed_version bverstr br
  | Base_version_unsuitable base_version _ => Base_version_unsuitable base_version br
  | _ => e
  end.

Definition map_exn {A} (f : exn -> exn) (r : result exn A) : result exn A :=
  match r with
  | Return a => Return a
  | Raise e => Raise (f e)
  end.

(** ** The table of the packaging tool

    [autopkg.py] keeps a table of its own, with the packaging branch that a
    branch type is merged into when its own packaging branch does not
    exist. *)

Module Autopkg.

Record branch_type : Type := mk_branch_type {
  default_debian_branch : string
}.

Definition BRANCH_TYPES : list (string * branch_type) :=
  [ ("feature", mk_branch_type "debian-develop");
    ("develop", mk_branch_type "debian-develop");
    ("release", mk_branch_type "debian-develop");
    ("master", mk_branch_type "debian");
    ("hotfix", mk_branch_type "debian") ].

(** [sub in s] for two strings: [sub] occurs in [s]. *)
Fixpoint str_in (sub s : string) : bool :=
  String.prefix sub s ||
  match s with
  | EmptyString => false
  | String _ s' => str_in sub s'
  end.

(** [sep.join(l)] *)
Fixpoint join (sep : string) (l : list string) : string :=
  match l with
  | [] => EmptyString
  | x :: xs =>
      match xs with
      | [] => x
      | _ :: _ => (x ++ sep ++ join sep xs)%string
      end
  end.

(** The two [ValueError]s of [main] on the name of the branch. *)
Inductive main_exn : Type :=
| Malformed_branch (branch allowed_branches : string)
    (* the check of the name of the branch, before it is normalized *)
| Malformed_type (btypestr allowed_branches : string).
    (* [KeyError] of [BRANCH_TYPES[btypestr]], raised again *)

(** [main], from the name of the branch of the clone to the branch that
    [git branch --track] is given: [keys] is what [BRANCH_TYPES.keys()]
    yields, [references] are the names of [repo.references].  The result
    is [debian_branch] with [origin_debian]. *)
Definition debian_branches (keys references : list string) (branch : string)
  : result main_exn (string * string) :=
  let allowed_branches := join ", " keys in
  if negb (str_in (hd EmptyString (Py.split "-" branch)) allowed_branches)
  then Raise (Malformed_branch branch allowed_branches) else
  let brnorm := normalize_branch_name branch in
  let btypestr := get_branch_type brnorm in
  let debian_branch := ("debian-" ++ brnorm)%string in
  let origin_debian := ("origin/" ++ debian_branch)%string in
  if negb (existsb (String.eqb origin_debian) references)
  then match dict_get BRANCH_TYPES btypestr with
       | Some bt =>
           Return (debian_branch, ("origin/" ++ default_debian_branch bt)%string)
       | None => Raise (Malformed_type btypestr allowed_branches)
       end
  else Return (debian_branch, origin_debian).

End Autopkg.

(** ** What a pattern means

    [sem r start w rest gs]: the pattern [r] matches the word [w] when
    [rest] follows it, [start] telling whether the word begins the text,
    and the match sets the named groups [gs] (the last one first). *)

Definition is_empty (s : string) : bool :=
  match s with
  | EmptyString => true
  | String _ _ => false
  end.

Inductive sem : regex -> bool -> string -> string -> list (string * string) -> Prop :=
| sem_eps start rest : sem Eps start "" rest []
| sem_lit c start rest : sem (Lit c) start (String c "") rest []
| sem_range lo hi a start rest :
    Ascii.leb lo a && Ascii.leb a hi = true ->
    sem (Range lo hi) start (String a "") rest []
| sem_cat r1 r2 start w1 w2 rest g1 g2 :
    sem r1 start w1 (w2 ++ rest) g1 ->
    sem r2 (start && is_empty w1) w2 rest g2 ->
    sem (Cat r1 r2) start (w1 ++ w2) rest (g2 ++ g1)
| sem_star_stop r start rest : sem (Star r) start "" rest []
| sem_star_more r start w1 w2 rest g1 g2 :
    sem r start w1 (w2 ++ rest) g1 ->
    w1 <> EmptyString ->
    sem (Star r) false w2 rest g2 ->
    sem (Star r) start (w1 ++ w2) rest (g2 ++ g1)
| sem_group_named n r start w rest g :
    sem r start w rest g ->
    sem (Group (Some n) r) start w rest ((n, w) :: g)
| sem_group r start w rest g :
    sem r start w rest g ->
    sem (Group None r) start w rest g
| sem_bol rest : sem Bol true "" rest []
| sem_eol start rest :
    rest = EmptyString \/ rest = String newline EmptyString ->
    sem Eol start "" rest [].

(** What [run] promises of each state it returns. *)
Definition run_spec (r : regex) (st st' : state) : Prop :=
  exists w gs,
    rest st = (w ++ rest st')%string /\
    groups st' = gs ++ groups st /\
    at_start st' = at_start st && is_empty w /\
    sem r (at_start st) w (rest st') gs.

(** A number without a leading zero: the words of [[1-9][0-9]*]. *)
Definition positive_str (k : string) : Prop :=
  exists d ds, k = String d ds /\
               Ascii.leb "1" d && Ascii.leb d "9" = true /\
               all_chars Py.is_digit ds = true.

Fixpoint count_char (c : ascii) (s : string) : nat :=
  match s with
  | EmptyString => 0
  | String a s' => (if Ascii.eqb a c then 1 else 0) + count_char c s'
  end.

(** The end of a text that [$] accepts. *)
Definition line_end (t : string) : Prop :=
  t = EmptyString \/ t = String newline EmptyString.

(** ** Files and the environment

    The functions that read the version file, the configuration file and
    the environment.  The file system is a map from paths to contents,
    the environment a dict given by its items. *)

Module Os.

(** [s.endswith("/")] *)
Fixpoint ends_with_slash (s : string) : bool :=
  match s with
  | EmptyString => false
  | String a EmptyString => Ascii.eqb a "/"
  | String _ s' => ends_with_slash s'
  end.

(** [os.path.join(a, b)] *)
Definition path_join (a b : string) : string :=
  if Py.startswith b "/" then b
  else if String.eqb a "" || ends_with_slash a then (a ++ b)%string
  else (a ++ "/" ++ b)%string.

(** The characters that [str.strip()] removes. *)
Definition is_space (c : ascii) : bool :=
  let n := nat_of_ascii c in
  Nat.eqb n 32 || (Nat.leb 9 n && Nat.leb n 13).

Fixpoint lstrip (s : string) : string :=
  match s with
  | EmptyString => EmptyString
  | String c s' => if is_space c then lstrip s' else s
  end.

Fixpoint rstrip (s : string) : string :=
  match s with
  | EmptyString => EmptyString
  | String c s' =>
      match rstrip s' with
      | EmptyString => if is_space c then EmptyString else String c EmptyString
      | r => String c r
      end
  end.

(** [s.strip()] *)
Definition strip (s : string) : string := lstrip (rstrip s).

(** [f.readlines()] on the content of [f]: the lines, each with the
    newline that ends it. *)
Fixpoint readlines (content : string) : list string :=
  match content with
  | EmptyString => []
  | String c s' =>
      if Ascii.eqb c newline then String c EmptyString :: readlines s'
      else match readlines s' with
           | l :: ls => String c l :: ls
           | [] => [String c EmptyString]
           end
  end.

(** [f.writelines(lines)] on an empty file: the content it leaves. *)
Fixpoint writelines (lines : list string) : string :=
  match lines with
  | [] => EmptyString
  | l :: ls => (l ++ writelines ls)%string
  end.



End Os.

(** The exceptions of this layer, next to those of the functions above. *)
Inductive io_exn : Type :=
| Raised (e : exn)
| IOError (path : string)
    (* [open] of a file that is not there *)
| Not_a_single_line
    (* ValueError "File '%s' should contain a single non-comment line." *)
| Mode_not_set
    (* ValueError "GITFLOW_BUILD_MODE environment variable is not set. ..." *)
| Mode_not_valid
    (* ValueError "GITFLOW_BUILD_MODE environment variable must be 'release' or 'snapshot'" *)
| InvalidGitRepositoryError
    (* [git.Repo(".")] outside a repository *)
| GitCommandError.
    (* a git command that fails *)

Definition lift {A} (r : result exn A) : result io_exn A :=
  match r with
  | Return a => Return a
  | Raise e => Raise (Raised e)
  end.

Definition BASE_VERSION_FILE : string := "version".

Module IO.

Record world : Type := mk_world {
  cwd : option Repo;                      (* the repository of the directory *)
  fs : string -> option string;           (* the files *)
  environ : list (string * string)        (* os.environ *)
}.

(** The stripped lines of a file that do not start with [#]. *)
Definition non_comment_lines (content : string) : list string :=
  filter (fun l => negb (Py.startswith l "#"))
         (map Os.strip (Os.readlines content)).

Definition base_version (w : world) (v : option info) : result io_exn string :=
  match v with
  | None => Raise (Raised (AttributeError "toplevel"))
  | Some i =>
      let path := Os.path_join (toplevel i) BASE_VERSION_FILE in
      match fs w path with
      | None => Raise (IOError path)
      | Some content =>
          match non_comment_lines content with
          | [l] => Return l
          | _ => Raise Not_a_single_line
          end
      end
  end.

Definition build_mode (w : world) : result io_exn string :=
  match dict_get (environ w) "GITFLOW_BUILD_MODE" with
  | None => Raise Mode_not_set
  | Some mode =>
      if String.eqb mode "release" || String.eqb mode "snapshot"
      then Return mode
      else Raise Mode_not_valid
  end.

Definition get_python_version (w : world) : result io_exn string :=
  v <- lift (vcs_info (cwd w)) ;;
  b <- base_version w v ;;
  mode <- build_mode w ;;
  match v with
  | Some i => lift (python_version b i mode)
  | None => Raise (Raised (AttributeError "branch"))
  end.

Definition get_debian_version (w : world) : result io_exn string :=
  v <- lift (vcs_info (cwd w)) ;;
  b <- base_version w v ;;
  mode <- build_mode w ;;
  match v with
  | Some i => lift (debian_version b i mode)
  | None => Raise (Raised (AttributeError "branch"))
  end.





End IO.

(** The characters of a base version: digits, dots and the letters of
    [next] and [rc]. *)
Definition version_char (a : ascii) : bool :=
  digit_or_dot a || Py.contains_char a "nextrc".

(** The characters of a commit identifier that the mapping to package
    versions leaves alone: all but [r] and the underscore. *)
Definition plain_char (a : ascii) : bool :=
  negb (Ascii.eqb a "r") && negb (Ascii.eqb a "_").

(** The characters that a pattern of the registry can match, with the
    newline that [$] lets by. *)
Definition base_char (a : ascii) : bool :=
  version_char a || Ascii.eqb a newline.

Definition no_r (a : ascii) : bool := negb (Ascii.eqb a "r").

Definition no_underscore (a : ascii) : bool := negb (Ascii.eqb a "_").




(** ** The changelog of a snapshot

    In snapshot mode [autopkg] rewrites the first and the third line of
    [debian/changelog], which [git-dch] has just written, in place. *)

Inductive index_error : Type := IndexError.

(** [lines[n]] *)
Definition item (lines : list string) (n : nat) : result index_error string :=
  match nth_error lines n with
  | Some l => Return l
  | None => Raise IndexError
  end.

(** [lines[n] = x], for [n] in range *)
Fixpoint list_set (n : nat) (x : string) (lines : list string) : list string :=
  match lines, n with
  | [], _ => []
  | _ :: ls, O => x :: ls
  | l :: ls, S n' => l :: list_set n' x ls
  end.

(** What a file that held [old] holds after [f.seek(0)] and a write of
    [new]: the file is not truncated. *)
Definition overwrite (old new : string) : string :=
  (new ++ Py.drop (String.length new) old)%string.

(** The branch of [main] for a mode other than [release], from the
    content of [debian/changelog] to the content that is left. *)
Definition snapshot_changelog (content : string) : result index_error string :=
  let lines := Os.readlines content in
  l0 <- item lines 0 ;;
  let lines := list_set 0 (Py.replace "UNRELEASED" "unstable" None l0) lines in
  l2 <- item lines 2 ;;
  let lines :=
    list_set 2 (Py.replace "UNRELEASED" "Snapshot version" None l2) lines in
  Return (overwrite content (Os.writelines lines)).

(** [s.count(old)] for a non-empty [old]: the occurrences that
    [s.replace(old, ...)] replaces. *)
Fixpoint count_from (old : string) (skip : nat) (s : string) : nat :=
  match s with
  | EmptyString => 0
  | String a s' =>
      match skip with
      | S k => count_from old k s'
      | O =>
          if String.prefix old s
          then S (count_from old (Nat.pred (String.length old)) s')
          else count_from old O s'
      end
  end.

Definition count (old s : string) : nat := count_from old O s.

(** * Properties *)

(** ** The branch classifier *)

Section Classifier.

Lemma replace_from_exhausted old new s :
  Py.replace_from old new (Some 0) 0 s = s.
Proof. destruct s; reflexivity. Qed.

Lemma split_at_first sep pre post :
  Py.contains_char sep pre = false ->
  Py.split sep (pre ++ String sep post) = pre :: Py.split sep post.
Proof.
  induction pre as [|a pre IH]; simpl.
  - intros _. now rewrite Ascii.eqb_refl.
  - destruct (Ascii.eqb a sep); [discriminate|].
    intros H. now rewrite (IH H).
Qed.

Lemma contains_char_app sep pre post :
  Py.contains_char sep (pre ++ String sep post) = true.
Proof.
  induction pre as [|a pre IH]; simpl.
  - now rewrite Ascii.eqb_refl.
  - now destruct (Ascii.eqb a sep).
Qed.



Lemma prefix_empty s : String.prefix "" s = true.
Proof. destruct s; reflexivity. Qed.

Lemma normalize_debian_prefix s :
  normalize_branch_name ("debian-" ++ s) = s.
Proof.
  unfold normalize_branch_name, Py.startswith, Py.replace. simpl.
  rewrite prefix_empty. apply replace_from_exhausted.
Qed.

End Classifier.

(** C7. Branch classification is a total function: the raw name [debian]
    normalizes to [master], the packaging form of master with its prefix
    removed, and so has the tag [master]; a raw name that starts with
    [debian-] loses exactly one occurrence of that prefix
    ([debian-debian-x] becomes [debian-x]); any other name is left as it
    is; and the tag is what comes before the first [-] of the normalized
    name when there is one, the whole normalized name otherwise. *)
Theorem classify_spec :
  normalize_branch_name "debian" = "master" /\
  get_branch_type (normalize_branch_name "debian") = "master" /\
  (forall s, normalize_branch_name ("debian-" ++ s) = s) /\
  normalize_branch_name "debian-debian-x" = "debian-x" /\
  (forall s, s <> "debian" -> Py.startswith s "debian-" = false ->
             normalize_branch_name s = s) /\
  (forall pre post, Py.contains_char "-" pre = false ->
                    get_branch_type (pre ++ "-" ++ post) = pre) /\
  (forall name, Py.contains_char "-" name = false ->
                get_branch_type name = name).
Proof.
  repeat split.
  - apply normalize_debian_prefix.
  - intros s Hne Hpre. unfold normalize_branch_name.
    destruct (String.eqb s "debian") eqn:E.
    + apply String.eqb_eq in E. contradiction.
    + now rewrite Hpre.
  - intros pre post H. unfold get_branch_type.
    change (pre ++ "-" ++ post)%string with (pre ++ String "-" post)%string.
    now rewrite contains_char_app, (split_at_first _ _ _ H).
  - intros name H. unfold get_branch_type. now rewrite H.
Qed.

Lemma classify_spec_witness :
  normalize_branch_name "develop" = "develop" /\
  get_branch_type ("release" ++ "-" ++ "0.14-x") = "release" /\
  get_branch_type "master" = "master".
Proof.
  destruct classify_spec as (_ & _ & _ & _ & Hother & Htag & Hwhole).
  split; [|split].
  - apply Hother; [discriminate | reflexivity].
  - apply Htag. reflexivity.
  - apply Hwhole. reflexivity.
Defined.

(** ** What a pattern consumes *)

Section RunFacts.

Variable P : ascii -> bool.

Lemma all_chars_app (u w : string) :
  all_chars P (u ++ w) = all_chars P u && all_chars P w.
Proof.
  induction u as [|a u IH]; simpl; [reflexivity|].
  now rewrite IH, andb_assoc.
Qed.

Lemma append_assoc (u w t : string) : ((u ++ w) ++ t = u ++ (w ++ t))%string.
Proof. induction u as [|a u IH]; simpl; [reflexivity | now rewrite IH]. Qed.

Lemma length_append (u w : string) :
  String.length (u ++ w) = String.length u + String.length w.
Proof. induction u as [|a u IH]; simpl; [reflexivity | now rewrite IH]. Qed.

Lemma slice_to_append (u w : string) :
  Py.slice_to (String.length (u ++ w) - String.length w) (u ++ w) = u.
Proof.
  rewrite length_append, Nat.add_sub. unfold Py.slice_to.
  induction u as [|a u IH]; simpl.
  - now destruct w.
  - now rewrite IH.
Qed.

Lemma step_char_consumes (ok : ascii -> bool) (st st' : state) :
  (forall a, ok a = true -> P a = true) ->
  In st' (step_char ok st) ->
  groups st' = groups st /\
  exists w, rest st = (w ++ rest st')%string /\ all_chars P w = true.
Proof.
  intros Hok. unfold step_char.
  destruct (rest st) as [|a s'] eqn:E; [intros []|].
  destruct (ok a) eqn:Ha; [|intros []].
  intros [<-|[]]. split; [reflexivity|].
  exists (String a ""). simpl. now rewrite (Hok a Ha).
Qed.

(** A successful run consumes a word over [P]. *)
Lemma run_within (r : regex) :
  within P r ->
  forall st st', In st' (run r st) ->
  exists w, rest st = (w ++ rest st')%string /\ all_chars P w = true.
Proof.
  induction r as [| c | lo hi | r1 IH1 r2 IH2 | r' IH | name r' IH | |];
    simpl; intros Hin st st' Hrun.
  - destruct Hrun as [<-|[]]. now exists "".
  - apply (step_char_consumes (Ascii.eqb c)) in Hrun; [tauto|].
    intros a Ha. apply Ascii.eqb_eq in Ha. now subst.
  - apply (step_char_consumes _ _ _ Hin) in Hrun. tauto.
  - destruct Hin as [H1 H2].
    apply in_flat_map in Hrun. destruct Hrun as [mid [Hmid Hend]].
    destruct (IH1 H1 _ _ Hmid) as [w1 [E1 A1]].
    destruct (IH2 H2 _ _ Hend) as [w2 [E2 A2]].
    exists (w1 ++ w2)%string. split.
    + now rewrite E1, E2, append_assoc.
    + now rewrite all_chars_app, A1, A2.
  - remember (String.length (rest st)) as fuel eqn:Ef. clear Ef.
    revert st st' Hrun.
    induction fuel as [|fuel IHf]; intros st st' Hrun.
    + destruct Hrun as [<-|[]]. now exists "".
    + apply in_app_or in Hrun. destruct Hrun as [Hrun|[<-|[]]].
      * apply in_flat_map in Hrun. destruct Hrun as [mid [Hmid Hend]].
        destruct (Nat.ltb _ _); [|destruct Hend].
        destruct (IH Hin _ _ Hmid) as [w1 [E1 A1]].
        destruct (IHf _ _ Hend) as [w2 [E2 A2]].
        exists (w1 ++ w2)%string. split.
        -- now rewrite E1, E2, append_assoc.
        -- now rewrite all_chars_app, A1, A2.
      * now exists "".
  - apply in_map_iff in Hrun. destruct Hrun as [st0 [<- Hst0]].
    destruct (IH Hin _ _ Hst0) as [w [E A]].
    exists w. split; [|exact A].
    destruct name; exact E.
  - destruct (at_start st); [|destruct Hrun].
    destruct Hrun as [<-|[]]. now exists "".
  - destruct (rest st) as [|a [|b s]] eqn:E.
    + destruct Hrun as [<-|[]]. exists "". now rewrite E.
    + destruct (Ascii.eqb a newline); [|destruct Hrun].
      destruct Hrun as [<-|[]]. exists "". now rewrite E.
    + destruct Hrun.
Qed.

(** The named groups of a successful run hold words over [P]. *)
Lemma run_groups (r : regex) :
  named_within P r ->
  forall st st', groups_within P st -> In st' (run r st) -> groups_within P st'.
Proof.
  induction r as [| c | lo hi | r1 IH1 r2 IH2 | r' IH | name r' IH | |];
    simpl; intros Hin st st' Hst Hrun.
  - now destruct Hrun as [<-|[]].
  - unfold step_char in Hrun. destruct (rest st); [destruct Hrun|].
    destruct (Ascii.eqb c a); [|destruct Hrun]. now destruct Hrun as [<-|[]].
  - unfold step_char in Hrun. destruct (rest st); [destruct Hrun|].
    destruct (_ && _); [|destruct Hrun]. now destruct Hrun as [<-|[]].
  - destruct Hin as [H1 H2].
    apply in_flat_map in Hrun. destruct Hrun as [mid [Hmid Hend]].
    eapply IH2; [exact H2| |exact Hend]. eapply IH1; eauto.
  - remember (String.length (rest st)) as fuel eqn:Ef. clear Ef.
    revert st st' Hst Hrun.
    induction fuel as [|fuel IHf]; intros st st' Hst Hrun.
    + now destruct Hrun as [<-|[]].
    + apply in_app_or in Hrun. destruct Hrun as [Hrun|[<-|[]]]; [|exact Hst].
      apply in_flat_map in Hrun. destruct Hrun as [mid [Hmid Hend]].
      destruct (Nat.ltb _ _); [|destruct Hend].
      eapply IHf; [|exact Hend]. eapply IH; eauto.
  - apply in_map_iff in Hrun. destruct Hrun as [st0 [<- Hst0]].
    destruct name as [n|].
    + destruct Hin as [Hw Hn].
      intros n' g [[= <- <-]|Hg].
      * destruct (run_within r' Hw _ _ Hst0) as [w [E A]].
        unfold consumed. rewrite E, slice_to_append. exact A.
      * exact (IH Hn _ _ Hst Hst0 _ _ Hg).
    + exact (IH Hin _ _ Hst Hst0).
  - destruct (at_start st); [|destruct Hrun]. now destruct Hrun as [<-|[]].
  - destruct (rest st) as [|a [|b s]].
    + now destruct Hrun as [<-|[]].
    + destruct (Ascii.eqb a newline); [|destruct Hrun].
      now destruct Hrun as [<-|[]].
    + destruct Hrun.
Qed.

Lemma assoc_In (k g : string) (m : list (string * string)) :
  assoc k m = Some g -> In (k, g) m.
Proof.
  induction m as [|[k' v] m IH]; simpl; [discriminate|].
  destruct (String.eqb k' k) eqn:E.
  - apply String.eqb_eq in E. intros [= ->]. left. now subst.
  - intros H. right. now apply IH.
Qed.

(** The groups of a match object hold words over [P]. *)
Lemma re_match_groups (r : regex) (s : string) (m : list (string * string))
      (k g : string) :
  named_within P r ->
  re_match r s = Some m ->
  assoc k m = Some g ->
  all_chars P g = true.
Proof.
  intros Hin Hm Hk. unfold re_match in Hm.
  destruct (run r (mkState true s [])) as [|st sts] eqn:E; [discriminate|].
  injection Hm as <-.
  assert (Hst : groups_within P st).
  { apply (run_groups r Hin (mkState true s []) st).
    - intros n g' [].
    - rewrite E. now left. }
  exact (Hst _ _ (assoc_In _ _ _ Hk)).
Qed.

End RunFacts.

Lemma digit_range (a : ascii) :
  Ascii.leb "0" a && Ascii.leb a "9" = true -> digit_or_dot a = true.
Proof. unfold digit_or_dot, Py.is_digit. now intros ->. Qed.

Lemma positive_range (a : ascii) :
  Ascii.leb "1" a && Ascii.leb a "9" = true -> digit_or_dot a = true.
Proof. destruct a as [[] [] [] [] [] [] [] []]; vm_compute; auto. Qed.

(** In every pattern of the registry the group [bverstr] holds digits and
    dots only. *)
Lemma BRANCH_TYPES_groups tag bt :
  dict_get BRANCH_TYPES tag = Some bt ->
  named_within digit_or_dot (allowed_version_re bt).
Proof.
  unfold BRANCH_TYPES. cbn [dict_get].
  repeat (destruct (String.eqb _ tag);
          [intros [= <-]; simpl;
           repeat match goal with |- _ /\ _ => split end;
           first [exact I | exact digit_range | exact positive_range | reflexivity]|]).
  discriminate.
Qed.

(** ** Commit identifiers *)

(** C4. A commit with one parent is identified by its own short
    identifier; a commit with two parents by the short identifiers of its
    parents joined by [-] when the name of the current branch starts with
    [debian-] or is [debian], by its own short identifier otherwise; for
    a commit with more than two parents, on any branch, the derivation
    raises the RuntimeError of unsupported topologies. *)
Theorem get_commit_id_spec (c : commit) (cur_br_name : string) :
  (forall p, parents c = [p] ->
             get_commit_id c cur_br_name = Return (short_id c)) /\
  (forall p1 p2, parents c = [p1; p2] ->
     get_commit_id c cur_br_name =
       if Py.startswith cur_br_name "debian-" || String.eqb cur_br_name "debian"
       then Return (short_id p1 ++ "-" ++ short_id p2)%string
       else Return (short_id c)) /\
  (2 < List.length (parents c) ->
     get_commit_id c cur_br_name = Raise (More_than_2_parents (hexsha c)) /\
     class_of (More_than_2_parents (hexsha c)) = RuntimeError).
Proof.
  unfold get_commit_id. repeat split.
  - intros p ->. reflexivity.
  - intros p1 p2 ->. reflexivity.
  - destruct (parents c) as [|p1 [|p2 [|p3 ps]]]; simpl in H; try lia.
    reflexivity.
Qed.

Lemma get_commit_id_spec_witness :
  let root := Commit "0000000aaaa" [] in
  let a := Commit "1234567890" [root] in
  let b := Commit "abcdef01234" [root] in
  let d := Commit "fedcba98765" [root] in
  get_commit_id a "develop" = Return "1234567" /\
  get_commit_id (Commit "9999999999" [a; b]) "debian-develop" = Return "1234567-abcdef0" /\
  get_commit_id (Commit "9999999999" [a; b]) "debian" = Return "1234567-abcdef0" /\
  get_commit_id (Commit "9999999999" [a; b]) "develop" = Return "9999999" /\
  get_commit_id (Commit "9999999999" [a; b; d]) "debian-develop"
    = Raise (More_than_2_parents "9999999999").
Proof.
  intros root a b d. split; [|split; [|split; [|split]]].
  - apply (proj1 (get_commit_id_spec a "develop") root). reflexivity.
  - apply (proj1 (proj2 (get_commit_id_spec (Commit "9999999999" [a; b])
                                           "debian-develop")) a b).
    reflexivity.
  - apply (proj1 (proj2 (get_commit_id_spec (Commit "9999999999" [a; b])
                                           "debian")) a b).
    reflexivity.
  - apply (proj1 (proj2 (get_commit_id_spec (Commit "9999999999" [a; b])
                                           "develop")) a b).
    reflexivity.
  - apply (proj2 (proj2 (get_commit_id_spec (Commit "9999999999" [a; b; d])
                                           "debian-develop"))).
    simpl. lia.
Defined.

(** C9. The derivation is defined exactly for the commits with one or two
    parents.  For a commit without parents it raises the same exception as
    for more than two, so [vcs_info], and with it [get_python_version] and
    [get_debian_version], fail at a root commit, whatever the version file
    and the environment hold. *)
Theorem get_commit_id_root (c : commit) (cur_br_name : string) :
  ((exists s, get_commit_id c cur_br_name = Return s) <->
   (List.length (parents c) = 1 \/ List.length (parents c) = 2)) /\
  (parents c = [] ->
     get_commit_id c cur_br_name = Raise (More_than_2_parents (hexsha c)) /\
     (forall c', 2 < List.length (parents c') ->
        site_more_than_2_parents = site (More_than_2_parents (hexsha c')) /\
        exists e, get_commit_id c' cur_br_name = Raise e /\
                  site e = site (More_than_2_parents (hexsha c))) /\
     forall commits dir read_version_file build_mode,
       let repo := Some (mk_repo cur_br_name c commits dir) in
       vcs_info repo = Raise (More_than_2_parents (hexsha c)) /\
       get_python_version read_version_file build_mode repo
         = Raise (More_than_2_parents (hexsha c)) /\
       get_debian_version read_version_file build_mode repo
         = Raise (More_than_2_parents (hexsha c))).
Proof.
  split.
  - unfold get_commit_id.
    destruct (parents c) as [|p1 [|p2 [|p3 ps]]]; simpl; split;
      try (intros [s H]; discriminate); try (intros [H|H]; discriminate);
      try (intros _; now left); try (intros _; now right).
    + intros _. now eexists.
    + intros _.
      destruct (Py.startswith cur_br_name "debian-" || String.eqb cur_br_name "debian");
        now eexists.
  - intros Hroot.
    assert (Hid : get_commit_id c cur_br_name = Raise (More_than_2_parents (hexsha c))).
    { unfold get_commit_id. now rewrite Hroot. }
    split; [exact Hid|]. split.
    + intros c' Hlen. split; [reflexivity|].
      exists (More_than_2_parents (hexsha c')). split; [|reflexivity].
      now apply get_commit_id_spec.
    + intros commits dir rd bm repo.
      unfold get_python_version, get_debian_version, vcs_info, repo. simpl.
      rewrite Hid. simpl. auto.
Qed.

Lemma get_commit_id_root_witness :
  let root := Commit "0000000aaaa" [] in
  get_commit_id root "master" = Raise (More_than_2_parents "0000000aaaa") /\
  get_python_version (fun _ => Return "0.14") (Return "release")
                     (Some (mk_repo "master" root [root] "/srv/repo"))
    = Raise (More_than_2_parents "0000000aaaa").
Proof.
  intros root.
  destruct (get_commit_id_root root "master") as [_ H].
  destruct (H eq_refl) as (Hid & _ & Hentry).
  split; [exact Hid|].
  exact (proj1 (proj2 (Hentry [root] "/srv/repo" (fun _ => Return "0.14")
                              (Return "release")))).
Defined.

(** ** The generator *)

Ltac case_step :=
  match goal with
  | |- context [match ?x with _ => _ end] =>
      match x with
      | context [match _ with _ => _ end] => fail 1
      | _ => destruct x eqn:?
      end
  | H : context [match ?x with _ => _ end] |- _ =>
      match x with
      | context [match _ with _ => _ end] => fail 1
      | _ => destruct x eqn:?
      end
  end.

(** The registry holds five types; the versioned ones carry the group
    [bverstr]. *)
Lemma BRANCH_TYPES_versioned tag bt :
  dict_get BRANCH_TYPES tag = Some bt ->
  versioned bt = true ->
  existsb (String.eqb "bverstr") (group_names (allowed_version_re bt)) = true.
Proof.
  unfold BRANCH_TYPES. cbn [dict_get].
  repeat (destruct (String.eqb _ tag);
          [intros [= <-]; cbn [versioned]; intros Hv;
           first [discriminate Hv | reflexivity]|]).
  discriminate.
Qed.

Lemma groupdict_get_versioned tag bt m :
  dict_get BRANCH_TYPES tag = Some bt ->
  versioned bt = true ->
  groupdict_get (allowed_version_re bt) m "bverstr" = Return (assoc "bverstr" m).
Proof.
  intros Hbt Hv. unfold groupdict_get.
  now rewrite (BRANCH_TYPES_versioned _ _ Hbt Hv).
Qed.

(** C1. Whenever every validation step accepts the input, the mode is
    [release] and the result is the base version unchanged, or the mode is
    [snapshot] and the result is the base version, an underscore, the
    revision count in decimal, an underscore and the commit identifier, the
    last two exactly as supplied.  And the steps do accept: for a branch
    type of the registry, a fragment of the branch name that passes its
    check where the type is versioned, a base version that matches the
    pattern of the type, with the fragment as its group, and a mode that
    the type builds, the call returns that result. *)
Theorem python_version_value (base_version : string) (v : info) (mode : string) :
  let brnorm := normalize_branch_name (branch v) in
  let snapshot :=
    (base_version ++ "_" ++ Py.str_of_int (revno v) ++ "_" ++ revid v)%string in
  (forall r, python_version base_version v mode = Return r ->
             (mode = "release" /\ r = base_version) \/
             (mode = "snapshot" /\ r = snapshot)) /\
  (forall bt frag m,
     dict_get BRANCH_TYPES (get_branch_type brnorm) = Some bt ->
     re_match (allowed_version_re bt) base_version = Some m ->
     (versioned bt = true ->
      nth_error (Py.split "-" brnorm) 1 = Some frag /\
      re_match VERSION_RE frag <> None /\
      assoc "bverstr" m = Some frag) ->
     (mode = "release" -> builds_release bt = true ->
      python_version base_version v mode = Return base_version) /\
     (mode = "snapshot" -> builds_snapshot bt = true ->
      python_version base_version v mode = Return snapshot)).
Proof.
  intros brnorm snapshot. split.
  - unfold python_version, bind. intros r H.
    repeat (case_step; try discriminate).
    all: injection H as <-.
    all: match goal with
         | E : String.eqb _ "snapshot" = true |- _ =>
             apply String.eqb_eq in E; right; now split
         | E : String.eqb _ "snapshot" = false |- _ => left; split; [|reflexivity]
         end.
    all: match goal with
         | E : negb (_ || String.eqb _ "release") = false |- _ =>
             apply negb_false_iff, orb_true_iff in E; destruct E as [E|E];
             [discriminate | now apply String.eqb_eq in E]
         end.
  - intros bt frag m Hbt Hm Hfrag.
    assert (Hsteps :
      python_version base_version v mode =
      if negb (String.eqb mode "snapshot" || String.eqb mode "release")
      then Raise (Mode_should_be_one_of mode) else
      if (String.eqb mode "snapshot" && negb (builds_snapshot bt))
         || (negb (String.eqb mode "snapshot") && negb (builds_release bt))
      then Raise (Invalid_mode_in_branch_type mode (get_branch_type brnorm)) else
      if String.eqb mode "snapshot" then Return snapshot else Return base_version).
    { unfold python_version, bind. fold brnorm. rewrite Hbt, Hm.
      destruct (versioned bt) eqn:Hv; [|reflexivity].
      destruct (Hfrag eq_refl) as (Hnth & Hre & Hg). rewrite Hnth.
      destruct (re_match VERSION_RE frag); [|contradiction].
      rewrite (groupdict_get_versioned _ _ _ Hbt Hv), Hg. simpl.
      now rewrite String.eqb_refl. }
    rewrite Hsteps. split; intros -> ->; reflexivity.
Qed.

Lemma python_version_value_witness :
  python_version "0.14rc2" (mk_info "release-0.14" "a1b2c3d" 249 "/srv/repo") "snapshot"
    = Return "0.14rc2_249_a1b2c3d" /\
  python_version "0.14.1" (mk_info "hotfix-0.14.1" "a1b2c3d" 249 "/srv/repo") "release"
    = Return "0.14.1" /\
  (("snapshot" = "release" /\ "0.14rc2_249_a1b2c3d" = "0.14rc2") \/
   ("snapshot" = "snapshot" /\
    "0.14rc2_249_a1b2c3d" = ("0.14rc2" ++ "_" ++ Py.str_of_int 249 ++ "_" ++ "a1b2c3d")%string)).
Proof.
  pose (release := mk_info "release-0.14" "a1b2c3d" 249 "/srv/repo").
  pose (hotfix := mk_info "hotfix-0.14.1" "a1b2c3d" 249 "/srv/repo").
  destruct (python_version_value "0.14rc2" release "snapshot") as [Hvalue Hrel].
  destruct (python_version_value "0.14.1" hotfix "release") as [_ Hhot].
  split; [|split].
  - refine (proj2 (Hrel (mk_branch_type true true true
                           (Cat Bol (Cat (Group (Some "bverstr") VERSION_RE)
                                         (Cat (Word "rc") (Cat positive Eol)))))
                        "0.14" [("bverstr", "0.14")] eq_refl eq_refl _)
                  eq_refl eq_refl).
    intros _. split; [reflexivity|]. split; [discriminate | reflexivity].
  - refine (proj1 (Hhot (mk_branch_type true true true
                           (Cat Bol (Cat (Group (Some "bverstr")
                                                (Cat Bol (Cat VERSION_RE
                                                              (Cat (Lit ".") positive))))
                                         Eol)))
                        "0.14.1" [("bverstr", "0.14.1")] eq_refl eq_refl _)
                  eq_refl eq_refl).
    intros _. split; [reflexivity|]. split; [discriminate | reflexivity].
  - exact (Hvalue "0.14rc2_249_a1b2c3d" eq_refl).
Defined.

(** C6. On the branch [master] the base version [0.14rc2] is rejected as
    unsuitable whatever the mode is, a recognised one or not: the pattern
    of the branch type decides before the mode is looked at. *)
Theorem master_rejects_rc (mode revid : string) (revno : N) (toplevel : string) :
  python_version "0.14rc2" (mk_info "master" revid revno toplevel) mode
    = Raise (Base_version_unsuitable "0.14rc2" "master") /\
  (exists bt, dict_get BRANCH_TYPES "master" = Some bt /\
              re_match (allowed_version_re bt) "0.14rc2" = None) /\
  python_version "0.14" (mk_info "master" revid revno toplevel) "neither"
    = Raise (Mode_should_be_one_of "neither").
Proof.
  split; [reflexivity|]. split; [|reflexivity].
  eexists. split; reflexivity.
Qed.

(** Both causes of an unsuitable base version end at one raise statement. *)
Lemma unsuitable_base_version (base_version : string) (v : info) (mode : string)
      (bt : branch_type) (frag : string) :
  let brnorm := normalize_branch_name (branch v) in
  dict_get BRANCH_TYPES (get_branch_type brnorm) = Some bt ->
  (versioned bt = true ->
   nth_error (Py.split "-" brnorm) 1 = Some frag /\
   re_match VERSION_RE frag <> None) ->
  re_match (allowed_version_re bt) base_version = None \/
  (versioned bt = true /\
   exists m, re_match (allowed_version_re bt) base_version = Some m /\
             assoc "bverstr" m <> Some frag) ->
  python_version base_version v mode
    = Raise (Base_version_unsuitable base_version (branch v)).
Proof.
  intros brnorm Hbt Hfrag Hcause.
  unfold python_version, bind. fold brnorm. rewrite Hbt.
  destruct (versioned bt) eqn:Hv.
  - destruct (Hfrag eq_refl) as [Hnth Hre]. rewrite Hnth.
    destruct (re_match VERSION_RE frag) as [m0|]; [|contradiction].
    destruct Hcause as [Hnone | [_ [m [Hm Hne]]]].
    + now rewrite Hnone.
    + rewrite Hm, (groupdict_get_versioned _ _ _ Hbt Hv).
      destruct (assoc "bverstr" m) as [g|]; simpl; [|reflexivity].
      destruct (String.eqb g frag) eqn:E; [|reflexivity].
      apply String.eqb_eq in E. congruence.
  - destruct Hcause as [Hnone | [Hv' _]]; [|discriminate].
    now rewrite Hnone.
Qed.

(** The two checks of the fragment on a versioned branch: a name without
    a second piece, and a second piece that does not start as a version. *)
Lemma versioned_fragment_checks (base_version : string) (v : info) (mode : string)
      (bt : branch_type) :
  let brnorm := normalize_branch_name (branch v) in
  dict_get BRANCH_TYPES (get_branch_type brnorm) = Some bt ->
  versioned bt = true ->
  (nth_error (Py.split "-" brnorm) 1 = None ->
   python_version base_version v mode
     = Raise (Branch_should_contain_version (branch v))) /\
  (forall frag, nth_error (Py.split "-" brnorm) 1 = Some frag ->
                re_match VERSION_RE frag = None ->
                python_version base_version v mode
                  = Raise (Malformed_version frag (branch v))).
Proof.
  intros brnorm Hbt Hv. unfold python_version, bind. fold brnorm.
  rewrite Hbt, Hv. split.
  - now intros ->.
  - now intros frag -> ->.
Qed.

(** C5, at the branch [release-0.14junk]: the fragment [0.14junk] is
    there and is no [<semver>], yet the check of the fragment accepts it,
    since [re.match] only asks for a prefix of that shape; every call on
    this branch fails, and never with the exception of a malformed
    version: it is the base version that is reported as unsuitable, since
    no group [bverstr] can equal the fragment. *)
Theorem release_junk_fragment :
  nth_error (Py.split "-" (normalize_branch_name "release-0.14junk")) 1
    = Some "0.14junk" /\
  is_semver "0.14junk" = false /\
  is_semver "0.14" = true /\
  re_match VERSION_RE "0.14junk" <> None /\
  (forall base_version revid revno toplevel mode,
     python_version base_version
                    (mk_info "release-0.14junk" revid revno toplevel) mode
       = Raise (Base_version_unsuitable base_version "release-0.14junk")) /\
  site (Base_version_unsuitable "0.14rc2" "release-0.14junk")
    <> site_malformed_version.
Proof.
  split; [reflexivity|]. split; [reflexivity|]. split; [reflexivity|].
  split; [discriminate|]. split; [|discriminate].
  intros b revid revno toplevel mode.
  destruct (dict_get BRANCH_TYPES "release") as [bt|] eqn:Hbt; [|discriminate].
  apply (unsuitable_base_version b
           (mk_info "release-0.14junk" revid revno toplevel) mode bt "0.14junk").
  - exact Hbt.
  - intros _. split; [reflexivity | discriminate].
  - destruct (re_match (allowed_version_re bt) b) as [m|] eqn:Hm;
      [right | now left].
    split; [injection Hbt as <-; reflexivity|].
    exists m. split; [reflexivity|]. intros Hk.
    pose proof (re_match_groups digit_or_dot _ _ _ _ _
                  (BRANCH_TYPES_groups _ _ Hbt) Hm Hk) as A.
    discriminate A.
Qed.

Lemma release_junk_fragment_witness :
  python_version "0.14rc2" (mk_info "release-0.14junk" "a1b2c3d" 249 "/srv/repo")
                 "snapshot"
    = Raise (Base_version_unsuitable "0.14rc2" "release-0.14junk").
Proof.
  destruct release_junk_fragment as (_ & _ & _ & _ & Hat & _).
  exact (Hat "0.14rc2" "a1b2c3d" 249%N "/srv/repo" "snapshot").
Defined.

(** C8, as the specification states it, fails: a base version that does
    not match the pattern of its branch type and one whose captured group
    differs from the fragment of the branch name reach the same raise
    statement, so no naming of the raise statements reports the first as
    [IncompatibleBaseVersion] and the second as
    [BaseVersionBranchMismatch]. *)
Lemma unsuitable_conditions_coincide :
  let r1 := python_version "0.14rc2" (mk_info "master" "a1b2c3d" 249 "/srv/repo")
                           "release" in
  let r2 := python_version "0.15rc1" (mk_info "release-0.14" "a1b2c3d" 249 "/srv/repo")
                           "release" in
  (exists bt, dict_get BRANCH_TYPES "master" = Some bt /\
              re_match (allowed_version_re bt) "0.14rc2" = None) /\
  (exists bt m, dict_get BRANCH_TYPES "release" = Some bt /\
                re_match (allowed_version_re bt) "0.15rc1" = Some m /\
                assoc "bverstr" m = Some "0.15" /\
                nth_error (Py.split "-" (normalize_branch_name "release-0.14")) 1
                  = Some "0.14") /\
  ~ (exists name : raise_site -> condition,
       reported name r1 = Some IncompatibleBaseVersion /\
       reported name r2 = Some BaseVersionBranchMismatch).
Proof.
  intros r1 r2. split; [|split].
  - eexists. split; reflexivity.
  - do 2 eexists. repeat split; reflexivity.
  - intros [name [H1 H2]].
    assert (E1 : r1 = Raise (Base_version_unsuitable "0.14rc2" "master"))
      by reflexivity.
    assert (E2 : r2 = Raise (Base_version_unsuitable "0.15rc1" "release-0.14"))
      by reflexivity.
    rewrite E1 in H1. rewrite E2 in H2. simpl in H1, H2. congruence.
Qed.

(** The checks of the mode, which come last: what a call gives once the
    branch name and the base version have passed theirs. *)
Lemma accepted_base_steps (base_version : string) (v : info) (mode : string)
      (bt : branch_type) (frag : string) (m : list (string * string)) :
  let brnorm := normalize_branch_name (branch v) in
  dict_get BRANCH_TYPES (get_branch_type brnorm) = Some bt ->
  re_match (allowed_version_re bt) base_version = Some m ->
  (versioned bt = true ->
   nth_error (Py.split "-" brnorm) 1 = Some frag /\
   re_match VERSION_RE frag <> None /\
   assoc "bverstr" m = Some frag) ->
  python_version base_version v mode =
  if negb (String.eqb mode "snapshot" || String.eqb mode "release")
  then Raise (Mode_should_be_one_of mode) else
  if (String.eqb mode "snapshot" && negb (builds_snapshot bt))
     || (negb (String.eqb mode "snapshot") && negb (builds_release bt))
  then Raise (Invalid_mode_in_branch_type mode (get_branch_type brnorm)) else
  if String.eqb mode "snapshot"
  then Return (base_version ++ "_" ++ Py.str_of_int (revno v) ++ "_" ++ revid v)%string
  else Return base_version.
Proof.
  intros brnorm Hbt Hm Hfrag.
  unfold python_version, bind. fold brnorm. rewrite Hbt, Hm.
  destruct (versioned bt) eqn:Hv; [|reflexivity].
  destruct (Hfrag eq_refl) as (Hnth & Hre & Hg). rewrite Hnth.
  destruct (re_match VERSION_RE frag); [|contradiction].
  rewrite (groupdict_get_versioned _ _ _ Hbt Hv), Hg. simpl.
  now rewrite String.eqb_refl.
Qed.

(** A value comes out of the checks of the mode only for a mode that the
    branch type builds. *)
Lemma mode_steps_Return (bt : branch_type) (tag mode b s r : string) :
  (if negb (String.eqb mode "snapshot" || String.eqb mode "release")
   then Raise (Mode_should_be_one_of mode) else
   if (String.eqb mode "snapshot" && negb (builds_snapshot bt))
      || (negb (String.eqb mode "snapshot") && negb (builds_release bt))
   then Raise (Invalid_mode_in_branch_type mode tag) else
   if String.eqb mode "snapshot" then Return s else Return b) = Return r ->
  (mode = "release" /\ builds_release bt = true /\ r = b) \/
  (mode = "snapshot" /\ builds_snapshot bt = true /\ r = s).
Proof.
  destruct (String.eqb mode "snapshot") eqn:Es.
  - apply String.eqb_eq in Es. cbn [orb negb andb].
    destruct (builds_snapshot bt); cbn [negb orb]; [|discriminate].
    intros [= <-]. right. now repeat split.
  - cbn [orb negb andb]. destruct (String.eqb mode "release") eqn:Er;
      cbn [negb]; [|discriminate].
    apply String.eqb_eq in Er.
    destruct (builds_release bt); cbn [negb orb]; [|discriminate].
    intros [= <-]. left. now repeat split.
Qed.

(** A value is returned only where every check has passed. *)
Lemma python_version_accepted (base_version : string) (v : info) (mode r : string) :
  let brnorm := normalize_branch_name (branch v) in
  python_version base_version v mode = Return r ->
  exists bt m,
    dict_get BRANCH_TYPES (get_branch_type brnorm) = Some bt /\
    re_match (allowed_version_re bt) base_version = Some m /\
    (versioned bt = true ->
     exists frag,
       nth_error (Py.split "-" brnorm) 1 = Some frag /\
       re_match VERSION_RE frag <> None /\
       assoc "bverstr" m = Some frag) /\
    ((mode = "release" /\ builds_release bt = true /\ r = base_version) \/
     (mode = "snapshot" /\ builds_snapshot bt = true /\
      r = (base_version ++ "_" ++ Py.str_of_int (revno v) ++ "_" ++ revid v)%string)).
Proof.
  intros brnorm H. unfold python_version, bind in H. fold brnorm in H.
  destruct (dict_get BRANCH_TYPES (get_branch_type brnorm)) as [bt|] eqn:Hbt;
    [|discriminate].
  destruct (versioned bt) eqn:Hv.
  - destruct (nth_error (Py.split "-" brnorm) 1) as [frag|] eqn:Hnth;
      [|discriminate].
    destruct (re_match VERSION_RE frag) as [m0|] eqn:Hre; [|discriminate].
    destruct (re_match (allowed_version_re bt) base_version) as [m|] eqn:Hm;
      [|discriminate].
    rewrite (groupdict_get_versioned _ _ m Hbt Hv) in H.
    destruct (assoc "bverstr" m) as [g|] eqn:Hg; cbn [opt_eqb negb] in H;
      [|discriminate].
    destruct (String.eqb g frag) eqn:E; cbn [negb] in H; [|discriminate].
    apply String.eqb_eq in E. subst g.
    exists bt, m. split; [reflexivity|]. split; [exact Hm|]. split.
    + intros _. exists frag. split; [reflexivity|]. split; [|exact Hg].
      rewrite Hre. discriminate.
    + exact (mode_steps_Return _ _ _ _ _ _ H).
  - destruct (re_match (allowed_version_re bt) base_version) as [m|] eqn:Hm;
      [|discriminate].
    exists bt, m. split; [reflexivity|]. split; [exact Hm|]. split.
    + intros Hf. rewrite Hv in Hf. discriminate Hf.
    + exact (mode_steps_Return _ _ _ _ _ _ H).
Qed.

(** C8, amended.  A call of [python_version] that fails raises a
    ValueError at one of its six raise statements, the six being pairwise
    distinct, and each of the six is reached on its own condition, in the
    order of the checks: an unknown branch type is reported as a malformed
    branch name; on a versioned branch type a name without a second piece
    is reported as a branch that should contain a version, and a second
    piece that does not start as a version as a malformed version; once
    the branch name has passed, a base version that fails the pattern and
    one whose captured group differs from the fragment of the branch name
    are both reported by the one exception of an unsuitable base version;
    once the base version has passed, a mode other than [snapshot] and
    [release] is reported as such, and a mode that the branch type does
    not build as invalid in the branch type.  No check has a default: a
    value is returned only where all of them have passed, and it is the
    whole version. *)
Theorem python_version_failures (base_version : string) (v : info) (mode : string) :
  let brnorm := normalize_branch_name (branch v) in
  let snapshot :=
    (base_version ++ "_" ++ Py.str_of_int (revno v) ++ "_" ++ revid v)%string in
  (forall e, python_version base_version v mode = Raise e ->
             class_of e = ValueError /\ In (site e) python_version_sites) /\
  NoDup python_version_sites /\
  (dict_get BRANCH_TYPES (get_branch_type brnorm) = None ->
   python_version base_version v mode
     = Raise (Malformed_branch_name (get_branch_type brnorm))) /\
  (forall bt frag,
     dict_get BRANCH_TYPES (get_branch_type brnorm) = Some bt ->
     (versioned bt = true ->
      nth_error (Py.split "-" brnorm) 1 = Some frag /\
      re_match VERSION_RE frag <> None) ->
     re_match (allowed_version_re bt) base_version = None \/
     (versioned bt = true /\
      exists m, re_match (allowed_version_re bt) base_version = Some m /\
                assoc "bverstr" m <> Some frag) ->
     python_version base_version v mode
       = Raise (Base_version_unsuitable base_version (branch v))) /\
  (forall bt,
     dict_get BRANCH_TYPES (get_branch_type brnorm) = Some bt ->
     versioned bt = true ->
     (nth_error (Py.split "-" brnorm) 1 = None ->
      python_version base_version v mode
        = Raise (Branch_should_contain_version (branch v))) /\
     (forall frag, nth_error (Py.split "-" brnorm) 1 = Some frag ->
                   re_match VERSION_RE frag = None ->
                   python_version base_version v mode
                     = Raise (Malformed_version frag (branch v)))) /\
  (forall bt frag m,
     dict_get BRANCH_TYPES (get_branch_type brnorm) = Some bt ->
     re_match (allowed_version_re bt) base_version = Some m ->
     (versioned bt = true ->
      nth_error (Py.split "-" brnorm) 1 = Some frag /\
      re_match VERSION_RE frag <> None /\
      assoc "bverstr" m = Some frag) ->
     (mode <> "snapshot" -> mode <> "release" ->
      python_version base_version v mode = Raise (Mode_should_be_one_of mode)) /\
     (mode = "snapshot" -> builds_snapshot bt = false ->
      python_version base_version v mode
        = Raise (Invalid_mode_in_branch_type mode (get_branch_type brnorm))) /\
     (mode = "release" -> builds_release bt = false ->
      python_version base_version v mode
        = Raise (Invalid_mode_in_branch_type mode (get_branch_type brnorm)))) /\
  (forall r, python_version base_version v mode = Return r ->
     exists bt m,
       dict_get BRANCH_TYPES (get_branch_type brnorm) = Some bt /\
       re_match (allowed_version_re bt) base_version = Some m /\
       (versioned bt = true ->
        exists frag,
          nth_error (Py.split "-" brnorm) 1 = Some frag /\
          re_match VERSION_RE frag <> None /\
          assoc "bverstr" m = Some frag) /\
       ((mode = "release" /\ builds_release bt = true /\ r = base_version) \/
        (mode = "snapshot" /\ builds_snapshot bt = true /\ r = snapshot))).
Proof.
  intros brnorm snapshot.
  split; [|split; [|split; [|split; [|split; [|split]]]]].
  - intros e H. unfold python_version, bind in H.
    repeat (case_step; try discriminate); injection H as <-;
      try (split; [reflexivity | simpl; tauto]).
    match goal with
    | Hbt : dict_get _ _ = Some ?bt, Hv : versioned ?bt = true,
      Hg : groupdict_get _ _ _ = Raise _ |- _ =>
        rewrite (groupdict_get_versioned _ _ _ Hbt Hv) in Hg; discriminate Hg
    end.
  - unfold python_version_sites.
    repeat (constructor; [simpl; intuition discriminate|]). constructor.
  - intros Hnone. unfold python_version, bind. fold brnorm. now rewrite Hnone.
  - intros bt frag. apply unsuitable_base_version.
  - intros bt. apply versioned_fragment_checks.
  - intros bt frag m Hbt Hm Hfrag.
    rewrite (accepted_base_steps base_version v mode bt frag m Hbt Hm Hfrag).
    fold brnorm. split; [|split].
    + intros Hs Hr. apply String.eqb_neq in Hs, Hr. now rewrite Hs, Hr.
    + intros -> Hb. cbn. now rewrite Hb.
    + intros -> Hb. cbn. now rewrite Hb.
  - intros r. apply python_version_accepted.
Qed.

Lemma python_version_failures_witness :
  python_version "0.14rc2" (mk_info "master" "a1b2c3d" 249 "/srv/repo") "release"
    = Raise (Base_version_unsuitable "0.14rc2" "master") /\
  python_version "0.15rc1" (mk_info "release-0.14" "a1b2c3d" 249 "/srv/repo") "release"
    = Raise (Base_version_unsuitable "0.15rc1" "release-0.14") /\
  class_of (Invalid_mode_in_branch_type "snapshot" "master") = ValueError /\
  python_version "0.14rc1" (mk_info "release" "a1b2c3d" 249 "/srv/repo") "release"
    = Raise (Branch_should_contain_version "release") /\
  python_version "0.14rc1" (mk_info "release-next" "a1b2c3d" 249 "/srv/repo") "release"
    = Raise (Malformed_version "next" "release-next") /\
  python_version "0.14" (mk_info "master" "a1b2c3d" 249 "/srv/repo") "both"
    = Raise (Mode_should_be_one_of "both") /\
  python_version "0.14" (mk_info "master" "a1b2c3d" 249 "/srv/repo") "snapshot"
    = Raise (Invalid_mode_in_branch_type "snapshot" "master") /\
  python_version "0.14next" (mk_info "develop" "a1b2c3d" 249 "/srv/repo") "release"
    = Raise (Invalid_mode_in_branch_type "release" "develop").
Proof.
  pose (master := mk_branch_type false true false (Cat Bol (Cat VERSION_RE Eol))).
  pose (develop := mk_branch_type true false false
                     (Cat Bol (Cat VERSION_RE (Cat (Word "next") Eol)))).
  pose (release := mk_branch_type true true true
                     (Cat Bol (Cat (Group (Some "bverstr") VERSION_RE)
                                   (Cat (Word "rc") (Cat positive Eol))))).
  split; [|split; [|split; [|split; [|split; [|split; [|split]]]]]].
  - destruct (python_version_failures "0.14rc2"
                (mk_info "master" "a1b2c3d" 249 "/srv/repo") "release")
      as (_ & _ & _ & H & _).
    refine (H master "" eq_refl _ _).
    + discriminate.
    + left. reflexivity.
  - destruct (python_version_failures "0.15rc1"
                (mk_info "release-0.14" "a1b2c3d" 249 "/srv/repo") "release")
      as (_ & _ & _ & H & _).
    refine (H release "0.14" eq_refl _ _).
    + intros _. split; [reflexivity | discriminate].
    + right. split; [reflexivity|].
      exists [("bverstr", "0.15")]. split; [reflexivity | discriminate].
  - destruct (python_version_failures "0.14"
                (mk_info "master" "a1b2c3d" 249 "/srv/repo") "snapshot")
      as (H & _).
    exact (proj1 (H _ eq_refl)).
  - destruct (python_version_failures "0.14rc1"
                (mk_info "release" "a1b2c3d" 249 "/srv/repo") "release")
      as (_ & _ & _ & _ & H & _).
    exact (proj1 (H release eq_refl eq_refl) eq_refl).
  - destruct (python_version_failures "0.14rc1"
                (mk_info "release-next" "a1b2c3d" 249 "/srv/repo") "release")
      as (_ & _ & _ & _ & H & _).
    exact (proj2 (H release eq_refl eq_refl) "next" eq_refl eq_refl).
  - destruct (python_version_failures "0.14"
                (mk_info "master" "a1b2c3d" 249 "/srv/repo") "both")
      as (_ & _ & _ & _ & _ & H & _).
    refine (proj1 (H master "" [] eq_refl eq_refl _) _ _); discriminate.
  - destruct (python_version_failures "0.14"
                (mk_info "master" "a1b2c3d" 249 "/srv/repo") "snapshot")
      as (_ & _ & _ & _ & _ & H & _).
    refine (proj1 (proj2 (H master "" [] eq_refl eq_refl _)) eq_refl eq_refl).
    discriminate.
  - destruct (python_version_failures "0.14next"
                (mk_info "develop" "a1b2c3d" 249 "/srv/repo") "release")
      as (_ & _ & _ & _ & _ & H & _).
    refine (proj2 (proj2 (H develop "" [] eq_refl eq_refl _)) eq_refl eq_refl).
    discriminate.
Defined.

(** C10. The branch name reaches the outcome of [python_version] only
    through the tag of its normalized form and, on a versioned branch
    type, through the second of the pieces that [-] separates: two
    repository states whose branch names agree on these, and that carry
    the same revision number and commit identifier, lead for the same base
    version and mode to the same value or to the same raise statement
    (the message of which quotes the branch name as given). *)
Theorem python_version_reads_tag_and_fragment
        (base_version : string) (v1 v2 : info) (mode : string) :
  let n1 := normalize_branch_name (branch v1) in
  let n2 := normalize_branch_name (branch v2) in
  get_branch_type n1 = get_branch_type n2 ->
  (forall bt, dict_get BRANCH_TYPES (get_branch_type n1) = Some bt ->
              versioned bt = true ->
              nth_error (Py.split "-" n1) 1 = nth_error (Py.split "-" n2) 1) ->
  revno v1 = revno v2 ->
  revid v1 = revid v2 ->
  outcome (python_version base_version v1 mode)
    = outcome (python_version base_version v2 mode) /\
  python_version base_version v2 mode
    = map_exn (requote (branch v2)) (python_version base_version v1 mode).
Proof.
  intros n1 n2 Htag Hfrag Hno Hid.
  assert (Hsame : python_version base_version v2 mode
                  = map_exn (requote (branch v2))
                            (python_version base_version v1 mode));
    [|split; [|exact Hsame]; rewrite Hsame;
      destruct (python_version base_version v1 mode) as [r|[]]; reflexivity].
  unfold python_version, bind. fold n1 n2. rewrite <- Htag, <- Hno, <- Hid.
  destruct (dict_get BRANCH_TYPES (get_branch_type n1)) as [bt|] eqn:Hbt;
    [|reflexivity].
  destruct (versioned bt) eqn:Hv.
  - rewrite <- (Hfrag bt eq_refl Hv).
    destruct (nth_error (Py.split "-" n1) 1) as [frag|]; [|reflexivity].
    destruct (re_match VERSION_RE frag); [|reflexivity].
    destruct (re_match (allowed_version_re bt) base_version) as [m|];
      [|reflexivity].
    rewrite (groupdict_get_versioned _ _ m Hbt Hv).
    simpl. destruct (negb (opt_eqb (assoc "bverstr" m) frag)); [reflexivity|].
    repeat (case_step; try reflexivity).
  - destruct (re_match (allowed_version_re bt) base_version) as [m|];
      [|reflexivity].
    repeat (case_step; try reflexivity).
Qed.

Lemma python_version_reads_tag_and_fragment_witness :
  outcome (python_version "0.14rc2"
             (mk_info "release-0.14-anything" "a1b2c3d" 249 "/srv/repo") "snapshot")
    = outcome (python_version "0.14rc2"
                 (mk_info "release-0.14" "a1b2c3d" 249 "/srv/repo") "snapshot") /\
  outcome (python_version "0.15rc2"
             (mk_info "debian-release-0.14-anything" "a1b2c3d" 249 "/srv/repo") "release")
    = outcome (python_version "0.15rc2"
                 (mk_info "release-0.14" "a1b2c3d" 249 "/srv/repo") "release") /\
  outcome (python_version "0.14next"
             (mk_info "feature-x-y" "a1b2c3d" 249 "/srv/repo") "snapshot")
    = outcome (python_version "0.14next"
                 (mk_info "feature-z" "a1b2c3d" 249 "/srv/repo") "snapshot").
Proof.
  split; [|split].
  - apply (fun H1 H2 H3 H4 => proj1 (python_version_reads_tag_and_fragment "0.14rc2"
             (mk_info "release-0.14-anything" "a1b2c3d" 249 "/srv/repo")
             (mk_info "release-0.14" "a1b2c3d" 249 "/srv/repo") "snapshot" H1 H2 H3 H4));
      try reflexivity.
  - apply (fun H1 H2 H3 H4 => proj1 (python_version_reads_tag_and_fragment "0.15rc2"
             (mk_info "debian-release-0.14-anything" "a1b2c3d" 249 "/srv/repo")
             (mk_info "release-0.14" "a1b2c3d" 249 "/srv/repo") "release" H1 H2 H3 H4));
      try reflexivity.
  - apply (fun H1 H2 H3 H4 => proj1 (python_version_reads_tag_and_fragment "0.14next"
             (mk_info "feature-x-y" "a1b2c3d" 249 "/srv/repo")
             (mk_info "feature-z" "a1b2c3d" 249 "/srv/repo") "snapshot" H1 H2 H3 H4));
      try reflexivity.
    intros bt [= <-]. discriminate.
Defined.

(** ** The package version *)

Section PackageVersion.

Let U := Py.replace "_" "~" None.
Let R := Py.replace "rc" "~rc" None.

Lemma replace_underscore_cons (a : ascii) (s : string) :
  U (String a s) = String (if Ascii.eqb a "_" then "~"%char else a) (U s).
Proof.
  unfold U, Py.replace. cbn [Py.replace_from String.prefix].
  destruct (ascii_dec "_" a) as [<-|Hne].
  - now rewrite prefix_empty.
  - destruct (Ascii.eqb a "_") eqn:E; [|reflexivity].
    apply Ascii.eqb_eq in E. congruence.
Qed.

Lemma replace_underscore_inj (s1 s2 : string) :
  all_chars no_tilde s1 = true -> all_chars no_tilde s2 = true ->
  U s1 = U s2 -> s1 = s2.
Proof.
  revert s2. induction s1 as [|a1 s1 IH]; intros [|a2 s2]; try reflexivity.
  - rewrite replace_underscore_cons. discriminate.
  - rewrite replace_underscore_cons. discriminate.
  - simpl. intros H1 H2. apply andb_prop in H1, H2.
    destruct H1 as [T1 A1], H2 as [T2 A2].
    rewrite !replace_underscore_cons. intros [= Ha Hs].
    rewrite (IH _ A1 A2 Hs). f_equal.
    unfold no_tilde in T1, T2.
    destruct (Ascii.eqb a1 "_") eqn:E1, (Ascii.eqb a2 "_") eqn:E2.
    + apply Ascii.eqb_eq in E1, E2. congruence.
    + subst a2. discriminate.
    + subst a1. discriminate.
    + exact Ha.
Qed.

Lemma replace_underscore_no_underscore (s : string) :
  all_chars (fun a => negb (Ascii.eqb a "_")) (U s) = true.
Proof.
  induction s as [|a s IH]; [reflexivity|].
  rewrite replace_underscore_cons. simpl. rewrite IH.
  now destruct (Ascii.eqb a "_") eqn:E; [|rewrite E].
Qed.

(** The three equations of [replace("rc", "~rc")]. *)
Lemma replace_rc_hit (s : string) : R ("rc" ++ s) = ("~rc" ++ R s)%string.
Proof.
  unfold R, Py.replace. simpl. rewrite prefix_empty. reflexivity.
Qed.

Lemma replace_rc_miss (a : ascii) (s : string) :
  String.prefix "rc" (String a s) = false ->
  R (String a s) = String a (R s).
Proof.
  unfold R, Py.replace. cbn [Py.replace_from]. now intros ->.
Qed.

Lemma prefix_rc (s : string) :
  String.prefix "rc" s = true -> exists s', s = ("rc" ++ s')%string.
Proof.
  destruct s as [|a [|b s']]; cbn [String.prefix]; try discriminate.
  - destruct (ascii_dec "r" a); discriminate.
  - destruct (ascii_dec "r" a) as [<-|]; [|discriminate].
    destruct (ascii_dec "c" b) as [<-|]; [|discriminate].
    intros _. now exists s'.
Qed.

Lemma replace_rc_cases (s : string) :
  s = EmptyString \/
  (exists s', s = ("rc" ++ s')%string /\ R s = ("~rc" ++ R s')%string) \/
  (exists a s', s = String a s' /\ String.prefix "rc" s = false /\
                R s = String a (R s')).
Proof.
  destruct s as [|a s']; [now left|right].
  destruct (String.prefix "rc" (String a s')) eqn:E.
  - left. destruct (prefix_rc _ E) as [s'' ->]. exists s''.
    split; [reflexivity | apply replace_rc_hit].
  - right. exists a, s'. split; [reflexivity|]. split; [reflexivity|].
    now apply replace_rc_miss.
Qed.

(** The result of the replacement never starts with [rc]: each [rc] of
    the text has got its tilde. *)
Lemma replace_rc_no_prefix (t : string) : String.prefix "rc" (R t) = false.
Proof.
  destruct (replace_rc_cases t) as [-> | [[t' [-> ->]] | [a [t' [-> [Hmiss ->]]]]]];
    try reflexivity.
  cbn [String.prefix]. destruct (ascii_dec "r" a) as [<-|]; [|reflexivity].
  destruct (replace_rc_cases t') as [-> | [[t'' [-> ->]] | [b [t'' [-> [_ ->]]]]]];
    try reflexivity.
  cbn [String.prefix] in *.
  destruct (ascii_dec "r" "r") as [_|n]; [|now elim n].
  destruct (ascii_dec "c" b); [|reflexivity].
  now rewrite prefix_empty in Hmiss.
Qed.

Lemma replace_rc_inj_upto (n : nat) :
  forall s1 s2, String.length s1 <= n -> R s1 = R s2 -> s1 = s2.
Proof.
  induction n as [|n IH]; intros s1 s2 Hlen.
  - destruct s1; [|simpl in Hlen; lia].
    destruct (replace_rc_cases s2) as [-> | [[t [-> ->]] | [b [t [-> [_ ->]]]]]];
      [reflexivity | discriminate | discriminate].
  - destruct (replace_rc_cases s1) as [-> | [[t1 [-> ->]] | [a [t1 [-> [M1 ->]]]]]];
    destruct (replace_rc_cases s2) as [-> | [[t2 [-> ->]] | [b [t2 [-> [M2 ->]]]]]];
      try reflexivity; try discriminate.
    + intros [= H]. f_equal. f_equal. apply IH; [simpl in Hlen; lia | exact H].
    + intros [= <- H]. pose proof (replace_rc_no_prefix t2) as N.
      rewrite <- H in N. cbn in N. rewrite prefix_empty in N. discriminate N.
    + intros [= -> H]. pose proof (replace_rc_no_prefix t1) as N.
      rewrite H in N. cbn in N. rewrite prefix_empty in N. discriminate N.
    + intros [= -> H]. f_equal. apply IH; [simpl in Hlen; lia | exact H].
Qed.

Lemma replace_rc_inj (s1 s2 : string) : R s1 = R s2 -> s1 = s2.
Proof. exact (replace_rc_inj_upto (String.length s1) s1 s2 (le_n _)). Qed.

Lemma append_inj_l (t u w : string) : (u ++ t = w ++ t)%string -> u = w.
Proof.
  revert w. induction u as [|a u IH]; intros [|b w] H.
  - reflexivity.
  - apply (f_equal String.length) in H. simpl in H.
    rewrite length_append in H. lia.
  - apply (f_equal String.length) in H. simpl in H.
    rewrite length_append in H. lia.
  - simpl in H. injection H as -> H. now rewrite (IH _ H).
Qed.

(** The mapping to package versions is one to one on the versions without
    a tilde. *)
Lemma debian_version_from_python_version_inj (a b : string) :
  all_chars no_tilde a = true -> all_chars no_tilde b = true ->
  debian_version_from_python_version a = debian_version_from_python_version b ->
  a = b.
Proof.
  intros Ha Hb H. unfold debian_version_from_python_version in H.
  apply append_inj_l, replace_rc_inj in H.
  now apply replace_underscore_inj.
Qed.

End PackageVersion.

(** A pattern that ends in [$] leaves nothing, or one final newline. *)
Lemma run_ends_with_eol (r : regex) :
  ends_with_eol r ->
  forall st st', In st' (run r st) ->
  rest st' = EmptyString \/ rest st' = String newline EmptyString.
Proof.
  induction r as [| c | lo hi | r1 IH1 r2 IH2 | r' IH | name r' IH | |];
    simpl; intros Hend st st' Hrun; try contradiction.
  - apply in_flat_map in Hrun. destruct Hrun as [mid [_ Hrun]]. eauto.
  - destruct (rest st) as [|a [|b s]] eqn:E.
    + destruct Hrun as [<-|[]]. now left.
    + destruct (Ascii.eqb a newline) eqn:Ea; [|destruct Hrun].
      destruct Hrun as [<-|[]]. apply Ascii.eqb_eq in Ea. subst. now right.
    + destruct Hrun.
Qed.

(** A text that a pattern ending in [$] matches is a word over its
    alphabet. *)
Lemma re_match_within (P : ascii -> bool) (r : regex) (s : string)
      (m : list (string * string)) :
  within P r -> ends_with_eol r -> P newline = true ->
  re_match r s = Some m -> all_chars P s = true.
Proof.
  intros Hin Hend Hnl Hm. unfold re_match in Hm.
  destruct (run r (mkState true s [])) as [|st sts] eqn:E; [discriminate|].
  assert (Hst : In st (run r (mkState true s []))) by (rewrite E; now left).
  destruct (run_within P r Hin _ _ Hst) as [w [Ew Aw]].
  simpl in Ew. rewrite Ew, all_chars_app, Aw.
  destruct (run_ends_with_eol r Hend _ _ Hst) as [-> | ->]; simpl;
    [reflexivity | now rewrite Hnl].
Qed.

Lemma no_tilde_digit (a : ascii) :
  Ascii.leb "0" a && Ascii.leb a "9" = true -> no_tilde a = true.
Proof. destruct a as [[] [] [] [] [] [] [] []]; vm_compute; auto. Qed.

Lemma no_tilde_positive (a : ascii) :
  Ascii.leb "1" a && Ascii.leb a "9" = true -> no_tilde a = true.
Proof. destruct a as [[] [] [] [] [] [] [] []]; vm_compute; auto. Qed.

(** No pattern of the registry admits a tilde. *)
Lemma BRANCH_TYPES_no_tilde tag bt :
  dict_get BRANCH_TYPES tag = Some bt ->
  within no_tilde (allowed_version_re bt) /\ ends_with_eol (allowed_version_re bt).
Proof.
  unfold BRANCH_TYPES. cbn [dict_get].
  repeat (destruct (String.eqb _ tag);
          [intros [= <-]; simpl;
           repeat match goal with |- _ /\ _ => split end;
           first [exact I | exact no_tilde_digit | exact no_tilde_positive
                 | reflexivity]|]).
  discriminate.
Qed.

Lemma string_of_uint_no_tilde (d : Decimal.uint) :
  all_chars no_tilde (NilEmpty.string_of_uint d) = true.
Proof. induction d; simpl; auto. Qed.

Lemma str_of_int_no_tilde (n : N) : all_chars no_tilde (Py.str_of_int n) = true.
Proof.
  unfold Py.str_of_int, NilZero.string_of_uint.
  destruct (N.to_uint n) eqn:E; try reflexivity;
    rewrite <- E; apply string_of_uint_no_tilde.
Qed.

(** What [python_version] returns, and on which grounds. *)
Lemma python_version_Return (base_version : string) (v : info) (mode r : string) :
  python_version base_version v mode = Return r ->
  exists bt m,
    dict_get BRANCH_TYPES (get_branch_type (normalize_branch_name (branch v)))
      = Some bt /\
    re_match (allowed_version_re bt) base_version = Some m /\
    ((mode = "release" /\ builds_release bt = true /\ r = base_version) \/
     (mode = "snapshot" /\ builds_snapshot bt = true /\
      r = (base_version ++ "_" ++ Py.str_of_int (revno v) ++ "_" ++ revid v)%string)).
Proof.
  unfold python_version, bind. intros H.
  destruct (dict_get BRANCH_TYPES _) as [bt|]; [|discriminate].
  destruct (re_match (allowed_version_re bt) base_version) as [m|] eqn:Hm.
  - exists bt, m. split; [reflexivity|]. split; [exact Hm|].
    repeat (case_step; try discriminate); injection H as <-.
    all: match goal with
         | E : String.eqb _ "snapshot" = true |- _ =>
             apply String.eqb_eq in E; right
         | E : String.eqb _ "snapshot" = false |- _ => left
         end.
    all: repeat match goal with
           | E : context [true && _] |- _ => rewrite andb_true_l in E
           | E : context [false && _] |- _ => rewrite andb_false_l in E
           | E : context [negb true] |- _ => cbn [negb] in E
           | E : context [negb false] |- _ => cbn [negb] in E
           | E : context [_ || false] |- _ => rewrite orb_false_r in E
           | E : context [false || _] |- _ => rewrite orb_false_l in E
           | E : negb _ = false |- _ => apply negb_false_iff in E
           end.
    all: try (split; [assumption|]; split; [assumption | reflexivity]).
    all: split; [now apply String.eqb_eq|]; split; [assumption | reflexivity].
  - repeat (case_step; try discriminate).
Qed.

(** A version that the generator returns holds no tilde, when the commit
    identifier holds none. *)
Lemma python_version_no_tilde (base_version : string) (v : info) (mode r : string) :
  python_version base_version v mode = Return r ->
  all_chars no_tilde (revid v) = true ->
  all_chars no_tilde r = true.
Proof.
  intros H Hid.
  destruct (python_version_Return _ _ _ _ H) as (bt & m & Hbt & Hm & Hr).
  destruct (BRANCH_TYPES_no_tilde _ _ Hbt) as [Hw He].
  pose proof (re_match_within no_tilde _ _ _ Hw He eq_refl Hm) as Hb.
  destruct Hr as [(_ & _ & ->) | (_ & _ & ->)]; [exact Hb|].
  rewrite !all_chars_app. simpl.
  now rewrite Hb, str_of_int_no_tilde, Hid.
Qed.

(** X16. The mapping to package versions is one to one on the versions
    that the generator returns for commit identifiers without a tilde,
    such as those of [get_commit_id] for hexadecimal hashes. *)
Lemma debian_version_inj (b1 b2 : string) (v1 v2 : info) (mode1 mode2 r1 r2 : string) :
  python_version b1 v1 mode1 = Return r1 ->
  python_version b2 v2 mode2 = Return r2 ->
  all_chars no_tilde (revid v1) = true ->
  all_chars no_tilde (revid v2) = true ->
  debian_version_from_python_version r1 = debian_version_from_python_version r2 ->
  r1 = r2.
Proof.
  intros H1 H2 T1 T2. apply debian_version_from_python_version_inj.
  - exact (python_version_no_tilde _ _ _ _ H1 T1).
  - exact (python_version_no_tilde _ _ _ _ H2 T2).
Qed.

(** ** The two orders *)

(** C2. Under the setuptools comparison each version of the chain
    [0.14rc2_249], [0.14rc2], [0.14], [0.14next_1], [0.14next], [0.14.1_1],
    [0.14.1] is strictly less than the next one. *)
Theorem setuptools_chain :
  Setuptools.lt "0.14rc2_249" "0.14rc2" /\
  Setuptools.lt "0.14rc2" "0.14" /\
  Setuptools.lt "0.14" "0.14next_1" /\
  Setuptools.lt "0.14next_1" "0.14next" /\
  Setuptools.lt "0.14next" "0.14.1_1" /\
  Setuptools.lt "0.14.1_1" "0.14.1".
Proof.
  unfold Setuptools.lt. repeat split; vm_compute; reflexivity.
Qed.

(** The keys that decide the chain. *)
Example parse_version_rc_snapshot :
  Setuptools.parse_version "0.14rc2_249"
    = ["00000000"; "00000014"; "*c"; "00000002"; "*_"; "00000249"; "*final"].
Proof. reflexivity. Qed.

Example parse_version_next :
  Setuptools.parse_version "0.14next" = ["00000000"; "00000014"; "*next"; "*final"].
Proof. reflexivity. Qed.

(** C3, at two snapshots of [develop] with the same revision number: the
    generator produces both, the setuptools comparison puts the one whose
    commit identifier starts with a letter first, and the comparison of
    their package versions puts it last. *)
Theorem debian_order_reversed :
  let a := "0.14next_5_abcdef0" in
  let b := "0.14next_5_1234567" in
  python_version "0.14next" (mk_info "develop" "abcdef0" 5 "/srv/repo") "snapshot"
    = Return a /\
  python_version "0.14next" (mk_info "develop" "1234567" 5 "/srv/repo") "snapshot"
    = Return b /\
  get_commit_id (Commit "abcdef0123456789" [Commit "0000000000000000" []]) "develop"
    = Return "abcdef0" /\
  debian_version_from_python_version a = "0.14next~5~abcdef0-1" /\
  debian_version_from_python_version b = "0.14next~5~1234567-1" /\
  Setuptools.lt a b /\
  Debian.lt (debian_version_from_python_version b)
            (debian_version_from_python_version a) /\
  ~ Debian.lt (debian_version_from_python_version a)
              (debian_version_from_python_version b).
Proof.
  intros a b. unfold Setuptools.lt, Debian.lt.
  repeat split; try (vm_compute; reflexivity).
  vm_compute. discriminate.
Qed.

(** The doctests of [debian_version_from_python_version] that the models
    decide as the docstring says. *)
Example debian_doctests :
  let D := debian_version_from_python_version in
  Debian.lt (D "0.14") (D "0.14next") /\
  Debian.lt (D "0.14rc7") (D "0.14next") /\
  Debian.lt (D "0.14next") (D "0.14.1") /\
  Debian.lt (D "0.14rc6") (D "0.14") /\
  Debian.lt (D "0.14.1") (D "0.14.2rc6") /\
  Debian.lt (D "0.14next_150") (D "0.14next") /\
  Debian.lt (D "0.14.1_149") (D "0.14.1") /\
  Debian.lt (D "0.14.1_149") (D "0.14.1_150") /\
  Debian.lt (D "0.13next") (D "0.14rc5_120") /\
  Debian.lt (D "0.14rc3_120") (D "0.14rc3") /\
  Debian.lt (D "0.14_120") (D "0.14") /\
  Debian.lt (D "0.14") (D "0.14next_20").
Proof.
  intros D. unfold Debian.lt. repeat split; vm_compute; reflexivity.
Qed.


(** * Further properties of the code *)

(** ** Branches *)

Lemma prefix_split (p s : string) :
  String.prefix p s = true -> exists t, s = (p ++ t)%string.
Proof.
  revert s. induction p as [|a p IH]; intros s H.
  - now exists s.
  - destruct s as [|b s]; [discriminate|]. cbn [String.prefix] in H.
    destruct (ascii_dec a b) as [<-|]; [|discriminate].
    destruct (IH _ H) as [t ->]. now exists t.
Qed.

Lemma eqb_append_longer (p t : string) :
  p <> EmptyString -> String.eqb t (p ++ t) = false.
Proof.
  intros Hp. apply String.eqb_neq. intros E.
  apply (f_equal String.length) in E. rewrite length_append in E.
  destruct p; [contradiction | simpl in E; lia].
Qed.

(** The test of [get_commit_id] for a packaging branch holds exactly on
    the names that [normalize_branch_name] rewrites. *)
Lemma packaging_branch_normalized (br : string) :
  Py.startswith br "debian-" || String.eqb br "debian"
    = negb (String.eqb (normalize_branch_name br) br).
Proof.
  destruct (String.eqb br "debian") eqn:E.
  - apply String.eqb_eq in E. subst. reflexivity.
  - rewrite orb_false_r. unfold normalize_branch_name. rewrite E.
    destruct (Py.startswith br "debian-") eqn:P.
    + destruct (prefix_split _ _ P) as [t ->].
      fold (normalize_branch_name ("debian-" ++ t)).
      change (Py.replace "debian-" "" (Some 1) ("debian-" ++ t))
        with (Py.replace_from "debian-" "" (Some 1) 0 ("debian-" ++ t)).
      assert (N : Py.replace_from "debian-" "" (Some 1) 0 ("debian-" ++ t) = t).
      { simpl. rewrite prefix_empty. apply replace_from_exhausted. }
      rewrite N, eqb_append_longer; [reflexivity | discriminate].
    + now rewrite String.eqb_refl.
Qed.

(** X1. On a merge commit the identifier is made of the parents exactly on
    the branches that [normalize_branch_name] rewrites. *)
Theorem merge_id_on_normalized_branches (c p1 p2 : commit) (br : string) :
  parents c = [p1; p2] ->
  get_commit_id c br =
    if String.eqb (normalize_branch_name br) br
    then Return (short_id c)
    else Return (short_id p1 ++ "-" ++ short_id p2)%string.
Proof.
  intros Hp. unfold get_commit_id. rewrite Hp, packaging_branch_normalized.
  now destruct (String.eqb (normalize_branch_name br) br).
Qed.

Lemma merge_id_on_normalized_branches_witness :
  let p1 := Commit "1234567890" [] in
  let p2 := Commit "abcdef0123" [] in
  get_commit_id (Commit "9999999999" [p1; p2]) "debian-release-0.14"
    = Return "1234567-abcdef0" /\
  get_commit_id (Commit "9999999999" [p1; p2]) "release-0.14"
    = Return "9999999".
Proof.
  intros p1 p2. split.
  - exact (merge_id_on_normalized_branches (Commit "9999999999" [p1; p2]) p1 p2
             "debian-release-0.14" eq_refl).
  - exact (merge_id_on_normalized_branches (Commit "9999999999" [p1; p2]) p1 p2
             "release-0.14" eq_refl).
Defined.

Lemma length_slice_to (n : nat) (s : string) :
  String.length (Py.slice_to n s) = Nat.min n (String.length s).
Proof.
  unfold Py.slice_to. revert s.
  induction n as [|n IH]; intros [|a s]; simpl; try reflexivity.
  now rewrite IH.
Qed.

(** X2. The identifier of a commit has at most seven characters, fifteen
    for the joined identifiers of a merge; for hashes of seven characters
    or more these are its exact lengths. *)
Theorem get_commit_id_length (c : commit) (br s : string) :
  get_commit_id c br = Return s ->
  String.length s <= 15 /\
  ((forall p, In p (c :: parents c) -> 7 <= String.length (hexsha p)) ->
   String.length s = 7 \/
   (String.length s = 15 /\ List.length (parents c) = 2 /\
    normalize_branch_name br <> br)).
Proof.
  unfold get_commit_id.
  destruct (parents c) as [|p1 [|p2 [|p3 ps]]] eqn:Hp; try discriminate.
  - intros [= <-]. unfold short_id. rewrite length_slice_to. split; [lia|].
    intros Hlen. left. specialize (Hlen c (or_introl eq_refl)). lia.
  - rewrite packaging_branch_normalized.
    destruct (String.eqb (normalize_branch_name br) br) eqn:E; simpl;
      intros [= <-]; unfold short_id.
    + rewrite length_slice_to. split; [lia|].
      intros Hlen. left. specialize (Hlen c (or_introl eq_refl)). lia.
    + rewrite length_append. simpl. rewrite !length_slice_to. split; [lia|].
      intros Hlen. right.
      pose proof (Hlen p1 (or_intror (or_introl eq_refl))).
      pose proof (Hlen p2 (or_intror (or_intror (or_introl eq_refl)))).
      split; [lia|]. split; [reflexivity|].
      now apply String.eqb_neq.
Qed.

Lemma get_commit_id_length_witness :
  let p1 := Commit "1234567890" [] in
  let p2 := Commit "abcdef0123" [] in
  String.length "1234567-abcdef0" <= 15 /\
  (String.length "1234567-abcdef0" = 7 \/
   (String.length "1234567-abcdef0" = 15 /\
    List.length (parents (Commit "9999999999" [p1; p2])) = 2 /\
    normalize_branch_name "debian" <> "debian")).
Proof.
  intros p1 p2.
  destruct (get_commit_id_length (Commit "9999999999" [p1; p2]) "debian"
              "1234567-abcdef0" eq_refl) as [Hle Hexact].
  split; [exact Hle|]. apply Hexact.
  intros p [<-|[<-|[<-|[]]]]; simpl; lia.
Defined.

(** The generator reads the branch name through its normalized form; the
    name as given only shows in the message of an exception. *)
Lemma python_version_normalized (base_version : string) (v1 v2 : info) (mode : string) :
  normalize_branch_name (branch v1) = normalize_branch_name (branch v2) ->
  revno v1 = revno v2 ->
  revid v1 = revid v2 ->
  python_version base_version v2 mode
    = map_exn (requote (branch v2)) (python_version base_version v1 mode).
Proof.
  intros Hn Hno Hid. unfold python_version, bind.
  rewrite <- Hn, <- Hno, <- Hid.
  destruct (dict_get BRANCH_TYPES _) as [bt|] eqn:Hbt; [|reflexivity].
  destruct (versioned bt) eqn:Hv.
  - destruct (nth_error _ 1) as [frag|]; [|reflexivity].
    destruct (re_match VERSION_RE frag); [|reflexivity].
    destruct (re_match (allowed_version_re bt) base_version) as [m|];
      [|reflexivity].
    rewrite (groupdict_get_versioned _ _ m Hbt Hv).
    simpl. destruct (negb (opt_eqb (assoc "bverstr" m) frag)); [reflexivity|].
    repeat (case_step; try reflexivity).
  - destruct (re_match (allowed_version_re bt) base_version) as [m|];
      [|reflexivity].
    repeat (case_step; try reflexivity).
Qed.

(** X3. The packaging tool computes the version on the branch
    [debian-<brnorm>], where [brnorm] is the normalized name of the branch
    it started from: the generator gives there what it gives on the
    starting branch, for the same revision number and commit identifier,
    up to the branch name that the message of an exception quotes. *)
Theorem python_version_on_debian_branch
        (base_version br revid : string) (revno : N) (top top' mode : string) :
  let debian_branch := ("debian-" ++ normalize_branch_name br)%string in
  python_version base_version (mk_info debian_branch revid revno top') mode
    = map_exn (requote debian_branch)
              (python_version base_version (mk_info br revid revno top) mode) /\
  (forall r, python_version base_version (mk_info br revid revno top) mode
               = Return r ->
             python_version base_version (mk_info debian_branch revid revno top') mode
               = Return r).
Proof.
  intros debian_branch.
  assert (H : python_version base_version (mk_info debian_branch revid revno top') mode
              = map_exn (requote debian_branch)
                  (python_version base_version (mk_info br revid revno top) mode)).
  { apply python_version_normalized; try reflexivity.
    simpl. unfold debian_branch. now rewrite normalize_debian_prefix. }
  split; [exact H|]. intros r Hr. now rewrite H, Hr.
Qed.

Lemma python_version_on_debian_branch_witness :
  python_version "0.14rc2"
                 (mk_info "debian-release-0.14" "a1b2c3d" 249 "/tmp/df-repo") "snapshot"
    = Return "0.14rc2_249_a1b2c3d".
Proof.
  exact (proj2 (python_version_on_debian_branch "0.14rc2" "release-0.14" "a1b2c3d"
                  249 "/srv/repo" "/tmp/df-repo" "snapshot")
               "0.14rc2_249_a1b2c3d" eq_refl).
Defined.

(** X4. The two tables know the same branch types, and the packaging
    branch that [autopkg] falls back to is one that the generator
    classifies, with a type that asks for no version in the name. *)
Theorem tables_agree (tag : string) :
  (dict_get BRANCH_TYPES tag = None <-> dict_get Autopkg.BRANCH_TYPES tag = None) /\
  (forall abt, dict_get Autopkg.BRANCH_TYPES tag = Some abt ->
     exists bt,
       dict_get BRANCH_TYPES
                (get_branch_type
                   (normalize_branch_name (Autopkg.default_debian_branch abt)))
         = Some bt /\
       versioned bt = false /\
       (normalize_branch_name (Autopkg.default_debian_branch abt) = "develop" \/
        normalize_branch_name (Autopkg.default_debian_branch abt) = "master")).
Proof.
  unfold BRANCH_TYPES, Autopkg.BRANCH_TYPES. cbn [dict_get].
  repeat (destruct (String.eqb _ tag);
          [split; [split; discriminate|];
           intros abt [= <-]; eexists;
           (split; [reflexivity|]; split; [reflexivity|]);
           first [now left | now right]|]).
  split; [tauto | discriminate].
Qed.

Lemma tables_agree_witness :
  exists bt,
    dict_get BRANCH_TYPES (get_branch_type (normalize_branch_name "debian")) = Some bt /\
    versioned bt = false /\
    (normalize_branch_name "debian" = "develop" \/
     normalize_branch_name "debian" = "master").
Proof.
  exact (proj2 (tables_agree "hotfix") (Autopkg.mk_branch_type "debian") eq_refl).
Defined.

(** X5. The combinations that the table of the docstring marks N/A: a
    version is returned on [master] in release mode only, and on a
    [feature] or [develop] branch in snapshot mode only, whatever the base
    version and the rest of the branch name are. *)
Theorem modes_not_built (base_version : string) (v : info) (mode r : string) :
  let tag := get_branch_type (normalize_branch_name (branch v)) in
  python_version base_version v mode = Return r ->
  (tag = "master" -> mode = "release") /\
  (tag = "feature" \/ tag = "develop" -> mode = "snapshot").
Proof.
  intros tag H.
  destruct (python_version_Return _ _ _ _ H) as (bt & m & Hbt & _ & Hmode).
  fold tag in Hbt. split.
  - intros E. rewrite E in Hbt. injection Hbt as <-.
    destruct Hmode as [(-> & _ & _) | (_ & Hs & _)]; [reflexivity | discriminate].
  - intros [E|E]; rewrite E in Hbt; injection Hbt as <-;
      (destruct Hmode as [(_ & Hs & _) | (-> & _ & _)];
       [discriminate | reflexivity]).
Qed.

Lemma modes_not_built_witness :
  ("master" = "master" -> "release" = "release") /\
  ("master" = "feature" \/ "master" = "develop" -> "release" = "snapshot").
Proof.
  exact (modes_not_built "0.14" (mk_info "master" "a1b2c3d" 249 "/srv/repo")
           "release" "0.14" eq_refl).
Defined.


(** ** The matcher and the meaning of patterns *)

Lemma append_empty_r (s : string) : (s ++ "")%string = s.
Proof. induction s as [|a s IH]; simpl; [reflexivity | now rewrite IH]. Qed.

Lemma is_empty_append (u w : string) :
  is_empty (u ++ w) = is_empty u && is_empty w.
Proof. now destruct u. Qed.

Lemma shorter_not_empty (w t : string) :
  String.length t < String.length (w ++ t) -> w <> EmptyString.
Proof. intros H ->. simpl in H. lia. Qed.

Lemma step_char_spec (ok : ascii -> bool) (r : regex) (st st' : state) :
  (forall a start rest, ok a = true -> sem r start (String a "") rest []) ->
  In st' (step_char ok st) -> run_spec r st st'.
Proof.
  intros Hsem. unfold step_char.
  destruct (rest st) as [|a s'] eqn:E; [intros []|].
  destruct (ok a) eqn:Ha; [|intros []].
  intros [<-|[]]. exists (String a ""), []. simpl.
  rewrite andb_false_r. repeat split; auto.
Qed.

Lemma run_spec_cat (r1 r2 : regex) (st mid st' : state) :
  run_spec r1 st mid -> run_spec r2 mid st' -> run_spec (Cat r1 r2) st st'.
Proof.
  intros (w1 & g1 & E1 & G1 & S1 & M1) (w2 & g2 & E2 & G2 & S2 & M2).
  exists (w1 ++ w2)%string, (g2 ++ g1). repeat split.
  - now rewrite E1, E2, append_assoc.
  - now rewrite G2, G1, app_assoc.
  - now rewrite S2, S1, is_empty_append, andb_assoc.
  - apply sem_cat.
    + now rewrite <- E2.
    + now rewrite <- S1.
Qed.

(** What the matcher finds is a match in the sense of [sem]. *)
Lemma run_sound (r : regex) :
  forall st st', In st' (run r st) -> run_spec r st st'.
Proof.
  induction r as [| c | lo hi | r1 IH1 r2 IH2 | r' IH | name r' IH | |];
    simpl; intros st st' Hrun.
  - destruct Hrun as [<-|[]]. exists "", []. simpl. rewrite andb_true_r.
    repeat split. constructor.
  - apply (step_char_spec (Ascii.eqb c)); [|exact Hrun].
    intros a start rest Ha. apply Ascii.eqb_eq in Ha. subst. constructor.
  - apply (step_char_spec (fun a => Ascii.leb lo a && Ascii.leb a hi));
      [|exact Hrun].
    intros a start rest Ha. now constructor.
  - apply in_flat_map in Hrun. destruct Hrun as [mid [Hmid Hend]].
    eapply run_spec_cat; eauto.
  - remember (String.length (rest st)) as fuel eqn:Ef. clear Ef.
    revert st st' Hrun.
    induction fuel as [|fuel IHf]; intros st st' Hrun.
    + destruct Hrun as [<-|[]]. exists "", []. simpl. rewrite andb_true_r.
      repeat split. constructor.
    + apply in_app_or in Hrun. destruct Hrun as [Hrun|[<-|[]]].
      * apply in_flat_map in Hrun. destruct Hrun as [mid [Hmid Hend]].
        destruct (Nat.ltb _ _) eqn:Hlt; [|destruct Hend].
        apply Nat.ltb_lt in Hlt.
        destruct (IH _ _ Hmid) as (w1 & g1 & E1 & G1 & S1 & M1).
        destruct (IHf _ _ Hend) as (w2 & g2 & E2 & G2 & S2 & M2).
        assert (Hne : w1 <> EmptyString).
        { rewrite E1 in Hlt. exact (shorter_not_empty _ _ Hlt). }
        assert (Hmid_start : at_start mid = false).
        { rewrite S1. destruct w1; [contradiction|]. apply andb_false_r. }
        exists (w1 ++ w2)%string, (g2 ++ g1). repeat split.
        -- now rewrite E1, E2, append_assoc.
        -- now rewrite G2, G1, app_assoc.
        -- rewrite S2, Hmid_start. destruct w1; [contradiction|].
           simpl. now rewrite andb_false_r.
        -- apply sem_star_more; [now rewrite <- E2 | exact Hne |].
           now rewrite <- Hmid_start.
      * exists "", []. simpl. rewrite andb_true_r. repeat split. constructor.
  - apply in_map_iff in Hrun. destruct Hrun as [st0 [<- Hst0]].
    destruct (IH _ _ Hst0) as (w & g & E & G & S & M).
    destruct name as [n|]; simpl.
    + exists w, ((n, w) :: g). repeat split; auto.
      * simpl. rewrite G. f_equal. f_equal. unfold consumed.
        now rewrite E, slice_to_append.
      * now constructor.
    + exists w, g. repeat split; auto. now constructor.
  - destruct (at_start st) eqn:Hs; [|destruct Hrun].
    destruct Hrun as [<-|[]]. exists "", []. simpl. rewrite Hs.
    repeat split. constructor.
  - assert (Hend : In st' (run Eol st)) by exact Hrun.
    destruct (rest st) as [|a [|b s]] eqn:E.
    + destruct Hrun as [<-|[]]. exists "", []. simpl. rewrite andb_true_r.
      repeat split. constructor. now left.
    + destruct (Ascii.eqb a newline) eqn:Ea; [|destruct Hrun].
      destruct Hrun as [<-|[]]. exists "", []. simpl. rewrite andb_true_r.
      repeat split; auto. constructor. right.
      apply Ascii.eqb_eq in Ea. now subst.
    + destruct Hrun.
Qed.

(** A match object of [re.match] witnesses a match of a prefix of the
    text, with the groups it holds. *)
Lemma re_match_sound (r : regex) (s : string) (m : list (string * string)) :
  re_match r s = Some m ->
  exists w rest, s = (w ++ rest)%string /\ sem r true w rest m.
Proof.
  unfold re_match.
  destruct (run r (mkState true s [])) as [|st sts] eqn:E; [discriminate|].
  intros [= <-].
  destruct (run_sound r (mkState true s []) st) as (w & gs & Ew & G & _ & M).
  { rewrite E. now left. }
  simpl in *. exists w, (rest st). split; [exact Ew|].
  rewrite G, app_nil_r. exact M.
Qed.

Ltac sem_inv :=
  repeat match goal with
         | H : sem (Cat _ _) _ _ _ _ |- _ => inversion H; subst; clear H
         | H : sem (Lit _) _ _ _ _ |- _ => inversion H; subst; clear H
         | H : sem Eps _ _ _ _ |- _ => inversion H; subst; clear H
         | H : sem Bol _ _ _ _ |- _ => inversion H; subst; clear H
         | H : sem Eol _ _ _ _ |- _ => inversion H; subst; clear H
         | H : sem (Group _ _) _ _ _ _ |- _ => inversion H; subst; clear H
         | H : sem (Range _ _) _ _ _ _ |- _ => inversion H; subst; clear H
         end.

Lemma sem_within (P : ascii -> bool) (r : regex) start w rest gs :
  within P r -> sem r start w rest gs -> all_chars P w = true.
Proof.
  intros Hin H. induction H; simpl in *; auto.
  - now rewrite Hin.
  - now rewrite (Hin a H).
  - destruct Hin. rewrite all_chars_app. now rewrite IHsem1, IHsem2.
  - rewrite all_chars_app. now rewrite IHsem1, IHsem2.
Qed.

Lemma sem_no_groups (r : regex) start w rest gs :
  group_names r = [] -> sem r start w rest gs -> gs = [].
Proof.
  intros Hn H. induction H; simpl in *; auto; try discriminate.
  - apply app_eq_nil in Hn. destruct Hn as [H1 H2].
    now rewrite IHsem1, IHsem2.
  - now rewrite IHsem1, IHsem2.
Qed.

Lemma count_char_app (c : ascii) (u w : string) :
  count_char c (u ++ w) = count_char c u + count_char c w.
Proof. induction u as [|a u IH]; simpl; [reflexivity | rewrite IH; lia]. Qed.

(** The words of [VERSION_RE]: digits and dots, a dot among them, and no
    named group. *)
Lemma sem_VERSION_RE start w rest gs :
  sem VERSION_RE start w rest gs ->
  all_chars digit_or_dot w = true /\ 1 <= count_char "." w /\ gs = [].
Proof.
  intros H. split; [|split].
  - apply (sem_within digit_or_dot _ _ _ _ _) in H; [exact H|].
    simpl. repeat split; first [exact digit_range | reflexivity].
  - unfold VERSION_RE in H. inversion H; subst; clear H.
    match goal with H : sem (Cat (Lit _) _) _ _ _ _ |- _ =>
      inversion H; subst; clear H end.
    match goal with H : sem (Lit _) _ _ _ _ |- _ =>
      inversion H; subst; clear H end.
    rewrite !count_char_app. simpl. lia.
  - now apply (sem_no_groups VERSION_RE _ _ _ _ eq_refl) in H.
Qed.

Lemma sem_star_digits start w rest gs :
  sem (Star (Range "0" "9")) start w rest gs ->
  all_chars Py.is_digit w = true.
Proof.
  intros H. apply (sem_within Py.is_digit _ _ _ _ _) in H; [exact H|].
  intros a Ha. exact Ha.
Qed.

Lemma sem_positive start w rest gs :
  sem positive start w rest gs -> positive_str w /\ gs = [].
Proof.
  intros H. split.
  - unfold positive in H. inversion H; subst; clear H.
    match goal with H : sem (Range _ _) _ _ _ _ |- _ =>
      inversion H; subst; clear H end.
    match goal with H : sem (Star _) _ _ _ _ |- _ =>
      apply sem_star_digits in H end.
    eexists _, _. split; [reflexivity|]. split; assumption.
  - now apply (sem_no_groups positive _ _ _ _ eq_refl) in H.
Qed.

Lemma digits_digit_or_dot (ds : string) :
  all_chars Py.is_digit ds = true -> all_chars digit_or_dot ds = true.
Proof.
  induction ds as [|a ds IH]; simpl; [reflexivity|].
  intros H. apply andb_prop in H. destruct H as [Ha Hds].
  unfold digit_or_dot at 1. now rewrite Ha, IH.
Qed.

(** The shapes of the registry. *)
Lemma sem_next_pattern w rest gs :
  sem (Cat Bol (Cat VERSION_RE (Cat (Word "next") Eol))) true w rest gs ->
  exists ver, w = (ver ++ "next")%string /\
              all_chars digit_or_dot ver = true /\ line_end rest.
Proof.
  intros H. simpl Word in H. sem_inv.
  match goal with H : sem VERSION_RE _ _ _ _ |- _ =>
    apply sem_VERSION_RE in H; destruct H as (Hd & _ & _) end.
  eexists. simpl. split; [reflexivity|]. split; assumption.
Qed.

Lemma sem_master_pattern w rest gs :
  sem (Cat Bol (Cat VERSION_RE Eol)) true w rest gs ->
  all_chars digit_or_dot w = true /\ line_end rest.
Proof.
  intros H. sem_inv.
  match goal with H : sem VERSION_RE _ _ _ _ |- _ =>
    apply sem_VERSION_RE in H; destruct H as (Hd & _ & _) end.
  simpl. rewrite append_empty_r. split; assumption.
Qed.

Lemma sem_release_pattern w rest gs :
  sem (Cat Bol (Cat (Group (Some "bverstr") VERSION_RE)
                    (Cat (Word "rc") (Cat positive Eol)))) true w rest gs ->
  exists g k, w = (g ++ "rc" ++ k)%string /\ gs = [("bverstr", g)] /\
              all_chars digit_or_dot g = true /\ positive_str k /\
              line_end rest.
Proof.
  intros H. simpl Word in H. sem_inv.
  match goal with H : sem VERSION_RE _ _ _ _ |- _ =>
    apply sem_VERSION_RE in H; destruct H as (Hd & _ & ->) end.
  match goal with H : sem positive _ _ _ _ |- _ =>
    apply sem_positive in H; destruct H as (Hk & ->) end.
  eexists _, _. simpl. rewrite append_empty_r.
  split; [reflexivity|]. repeat split; assumption.
Qed.

Lemma sem_hotfix_pattern w rest gs :
  sem (Cat Bol (Cat (Group (Some "bverstr")
                           (Cat Bol (Cat VERSION_RE (Cat (Lit ".") positive))))
                    Eol)) true w rest gs ->
  gs = [("bverstr", w)] /\ all_chars digit_or_dot w = true /\
  2 <= count_char "." w /\ line_end rest.
Proof.
  intros H. sem_inv.
  match goal with H : sem VERSION_RE _ _ _ _ |- _ =>
    apply sem_VERSION_RE in H; destruct H as (Hd & Hc & ->) end.
  match goal with H : sem positive _ _ _ _ |- _ =>
    apply sem_positive in H; destruct H as ((d & ds & -> & Hr & Hds) & ->) end.
  simpl. rewrite !append_empty_r. split; [reflexivity|]. split; [|split].
  - rewrite all_chars_app, Hd. simpl.
    rewrite (positive_range _ Hr). simpl. now apply digits_digit_or_dot.
  - rewrite count_char_app. simpl. lia.
  - assumption.
Qed.

(** ** The base versions that the generator accepts *)

Lemma python_version_Return_versioned
      (base_version : string) (v : info) (mode r : string) (bt : branch_type) :
  let brnorm := normalize_branch_name (branch v) in
  python_version base_version v mode = Return r ->
  dict_get BRANCH_TYPES (get_branch_type brnorm) = Some bt ->
  versioned bt = true ->
  exists frag m,
    nth_error (Py.split "-" brnorm) 1 = Some frag /\
    re_match (allowed_version_re bt) base_version = Some m /\
    assoc "bverstr" m = Some frag.
Proof.
  intros brnorm H Hbt Hv. unfold python_version, bind in H.
  fold brnorm in H. rewrite Hbt, Hv in H.
  destruct (nth_error (Py.split "-" brnorm) 1) as [frag|]; [|discriminate].
  destruct (re_match VERSION_RE frag); [|discriminate].
  destruct (re_match (allowed_version_re bt) base_version) as [m|];
    [|discriminate].
  rewrite (groupdict_get_versioned _ _ m Hbt Hv) in H.
  exists frag, m. split; [reflexivity|]. split; [reflexivity|].
  destruct (assoc "bverstr" m) as [g|]; simpl in H; [|discriminate].
  destruct (String.eqb g frag) eqn:E; simpl in H; [|discriminate].
  apply String.eqb_eq in E. now subst.
Qed.

(** X6. On a branch [release-F] a version is returned only for the base
    versions [F rc N], with [N] a number without a leading zero, and on a
    branch [hotfix-F] only for the base version [F] itself, a version of
    three components or more; a final newline apart. *)
Theorem versioned_base_version (base_version : string) (v : info) (mode r : string) :
  let brnorm := normalize_branch_name (branch v) in
  let tag := get_branch_type brnorm in
  python_version base_version v mode = Return r ->
  (tag = "release" ->
   exists frag k t,
     nth_error (Py.split "-" brnorm) 1 = Some frag /\
     base_version = (frag ++ "rc" ++ k ++ t)%string /\
     all_chars digit_or_dot frag = true /\ positive_str k /\ line_end t) /\
  (tag = "hotfix" ->
   exists frag t,
     nth_error (Py.split "-" brnorm) 1 = Some frag /\
     base_version = (frag ++ t)%string /\
     all_chars digit_or_dot frag = true /\ 2 <= count_char "." frag /\
     line_end t).
Proof.
  intros brnorm tag H. split; intros Htag.
  - destruct (python_version_Return_versioned base_version v mode r
                (mk_branch_type true true true
                   (Cat Bol (Cat (Group (Some "bverstr") VERSION_RE)
                                 (Cat (Word "rc") (Cat positive Eol))))) H)
      as (frag & m & Hnth & Hm & Hg).
    { fold brnorm tag. now rewrite Htag. }
    { reflexivity. }
    cbn [allowed_version_re] in Hm.
    destruct (re_match_sound _ _ _ Hm) as (w & t & -> & Hsem).
    destruct (sem_release_pattern _ _ _ Hsem) as (g & k & -> & -> & Hd & Hk & Ht).
    injection Hg as ->.
    exists frag, k, t. split; [exact Hnth|]. split.
    + simpl. now rewrite !append_assoc.
    + repeat split; assumption.
  - destruct (python_version_Return_versioned base_version v mode r
                (mk_branch_type true true true
                   (Cat Bol (Cat (Group (Some "bverstr")
                                        (Cat Bol (Cat VERSION_RE
                                                      (Cat (Lit ".") positive))))
                                 Eol))) H)
      as (frag & m & Hnth & Hm & Hg).
    { fold brnorm tag. now rewrite Htag. }
    { reflexivity. }
    cbn [allowed_version_re] in Hm.
    destruct (re_match_sound _ _ _ Hm) as (w & t & -> & Hsem).
    destruct (sem_hotfix_pattern _ _ _ Hsem) as (-> & Hd & Hc & Ht).
    injection Hg as ->.
    exists frag, t. repeat split; assumption.
Qed.

Lemma versioned_base_version_witness :
  (exists frag k t,
     nth_error (Py.split "-" (normalize_branch_name "debian-release-0.14")) 1
       = Some frag /\
     "0.14rc2" = (frag ++ "rc" ++ k ++ t)%string /\
     all_chars digit_or_dot frag = true /\ positive_str k /\ line_end t) /\
  (exists frag t,
     nth_error (Py.split "-" (normalize_branch_name "hotfix-0.14.1")) 1
       = Some frag /\
     "0.14.1" = (frag ++ t)%string /\
     all_chars digit_or_dot frag = true /\ 2 <= count_char "." frag /\
     line_end t).
Proof.
  split.
  - exact (proj1 (versioned_base_version "0.14rc2"
                    (mk_info "debian-release-0.14" "a1b2c3d" 249 "/srv/repo")
                    "snapshot" "0.14rc2_249_a1b2c3d" eq_refl) eq_refl).
  - exact (proj2 (versioned_base_version "0.14.1"
                    (mk_info "hotfix-0.14.1" "a1b2c3d" 249 "/srv/repo")
                    "release" "0.14.1" eq_refl) eq_refl).
Defined.

(** X7. On a [feature] or [develop] branch a version is returned only for
    the base versions [V next], and on [master] only for the base versions
    [V], with [V] made of digits and dots; a final newline apart. *)
Theorem unversioned_base_version (base_version : string) (v : info) (mode r : string) :
  let tag := get_branch_type (normalize_branch_name (branch v)) in
  python_version base_version v mode = Return r ->
  (tag = "feature" \/ tag = "develop" ->
   exists ver t, base_version = (ver ++ "next" ++ t)%string /\
                 all_chars digit_or_dot ver = true /\ line_end t) /\
  (tag = "master" ->
   exists ver t, base_version = (ver ++ t)%string /\
                 all_chars digit_or_dot ver = true /\ line_end t).
Proof.
  intros tag H.
  destruct (python_version_Return _ _ _ _ H) as (bt & m & Hbt & Hm & _).
  fold tag in Hbt.
  destruct (re_match_sound _ _ _ Hm) as (w & t & -> & Hsem).
  split.
  - intros [E|E]; rewrite E in Hbt; injection Hbt as <-;
      cbn [allowed_version_re] in Hsem;
      destruct (sem_next_pattern _ _ _ Hsem) as (ver & -> & Hd & Ht);
      exists ver, t; (split; [now rewrite append_assoc|]); split; assumption.
  - intros E. rewrite E in Hbt. injection Hbt as <-.
    cbn [allowed_version_re] in Hsem.
    destruct (sem_master_pattern _ _ _ Hsem) as (Hd & Ht).
    exists w, t. repeat split; assumption.
Qed.

Lemma unversioned_base_version_witness :
  (exists ver t, "0.14next" = (ver ++ "next" ++ t)%string /\
                 all_chars digit_or_dot ver = true /\ line_end t) /\
  (exists ver t, "0.14" = (ver ++ t)%string /\
                 all_chars digit_or_dot ver = true /\ line_end t).
Proof.
  split.
  - exact (proj1 (unversioned_base_version "0.14next"
                    (mk_info "feature-x" "a1b2c3d" 249 "/srv/repo")
                    "snapshot" "0.14next_249_a1b2c3d" eq_refl)
                 (or_introl eq_refl)).
  - exact (proj2 (unversioned_base_version "0.14"
                    (mk_info "master" "a1b2c3d" 249 "/srv/repo")
                    "release" "0.14" eq_refl) eq_refl).
Defined.


(** ** The version file and the environment *)

Section Strip.

Import Os.

Lemma lstrip_clean (s : string) : lstrip (lstrip s) = lstrip s.
Proof.
  induction s as [|c s IH]; simpl; [reflexivity|].
  destruct (is_space c) eqn:E; [exact IH|]. simpl. now rewrite E.
Qed.

Lemma rstrip_cons (c : ascii) (s : string) :
  rstrip (String c s) =
    match rstrip s with
    | EmptyString => if is_space c then EmptyString else String c EmptyString
    | r => String c r
    end.
Proof. reflexivity. Qed.

Lemma rstrip_clean (s : string) : rstrip (rstrip s) = rstrip s.
Proof.
  induction s as [|c s IH]; [reflexivity|].
  rewrite rstrip_cons. destruct (rstrip s) as [|b r] eqn:E.
  - destruct (is_space c) eqn:Ec; [reflexivity|].
    simpl. now rewrite Ec.
  - rewrite rstrip_cons, IH. reflexivity.
Qed.

(** Dropping leading spaces keeps a clean end clean. *)
Lemma rstrip_lstrip (s : string) : rstrip s = s -> rstrip (lstrip s) = lstrip s.
Proof.
  induction s as [|c s IH]; [reflexivity|].
  intros H. simpl. destruct (is_space c) eqn:Ec; [|exact H].
  apply IH. rewrite rstrip_cons in H.
  destruct (rstrip s) as [|b r] eqn:E.
  - rewrite Ec in H. discriminate.
  - now injection H.
Qed.

Lemma strip_clean (s : string) : strip (strip s) = strip s.
Proof.
  unfold strip.
  rewrite (rstrip_lstrip (rstrip s) (rstrip_clean s)). apply lstrip_clean.
Qed.

Lemma contains_lstrip (c : ascii) (s : string) :
  Py.contains_char c s = false -> Py.contains_char c (lstrip s) = false.
Proof.
  induction s as [|a s IH]; simpl; [reflexivity|].
  destruct (Ascii.eqb a c) eqn:E; [discriminate|]. intros H.
  destruct (is_space a); [now apply IH|]. simpl. now rewrite E.
Qed.

Lemma contains_rstrip (c : ascii) (s : string) :
  Py.contains_char c s = false -> Py.contains_char c (rstrip s) = false.
Proof.
  induction s as [|a s IH]; [reflexivity|].
  intros H. simpl in H. destruct (Ascii.eqb a c) eqn:E; [discriminate|].
  rewrite rstrip_cons. specialize (IH H).
  destruct (rstrip s) as [|b r].
  - destruct (is_space a); [reflexivity|]. simpl. now rewrite E.
  - simpl. rewrite E. exact IH.
Qed.

Lemma rstrip_app_space (u : string) (a : ascii) :
  is_space a = true -> rstrip (u ++ String a "") = rstrip u.
Proof.
  intros Ha. induction u as [|b u IH]; simpl.
  - now rewrite Ha.
  - now rewrite IH.
Qed.

(** A line of [readlines]: a text without a newline, and the newline that
    ends it, which the last line may lack. *)
Lemma readlines_line (content x : string) :
  In x (readlines content) ->
  exists body, Py.contains_char newline body = false /\
               (x = (body ++ String newline "")%string \/ x = body).
Proof.
  revert x. induction content as [|c s IH]; intros x; simpl; [intros []|].
  destruct (Ascii.eqb c newline) eqn:E.
  - apply Ascii.eqb_eq in E. subst c. intros [<-|Hin]; [|now apply IH].
    exists "". split; [reflexivity | now left].
  - destruct (readlines s) as [|l ls] eqn:El.
    + intros [<-|[]]. exists (String c ""). simpl. rewrite E. split; auto.
    + intros [<-|Hin].
      * destruct (IH l (or_introl eq_refl)) as (body & Hb & Hl).
        exists (String c body). simpl. rewrite E. split; [exact Hb|].
        destruct Hl as [-> | ->]; auto.
      * apply IH. now right.
Qed.

Lemma strip_line_no_newline (content x : string) :
  In x (readlines content) -> Py.contains_char newline (strip x) = false.
Proof.
  intros Hin. destruct (readlines_line _ _ Hin) as (body & Hb & [-> | ->]);
    unfold strip; apply contains_lstrip.
  - rewrite rstrip_app_space by reflexivity. now apply contains_rstrip.
  - now apply contains_rstrip.
Qed.

(** What the two readers keep of a file. *)
Lemma non_comment_line (content l : string) :
  In l (IO.non_comment_lines content) ->
  strip l = l /\ Py.startswith l "#" = false /\
  Py.contains_char newline l = false.
Proof.
  unfold IO.non_comment_lines. intros Hin.
  apply filter_In in Hin. destruct Hin as [Hin Hc].
  apply in_map_iff in Hin. destruct Hin as (x & <- & Hx).
  split; [apply strip_clean|]. split.
  - now apply negb_true_iff.
  - exact (strip_line_no_newline _ _ Hx).
Qed.

Lemma readlines_not_nil (u : string) :
  readlines (u ++ String newline "") <> [].
Proof.
  destruct u as [|a u]; simpl; [discriminate|].
  destruct (Ascii.eqb a newline); [discriminate|].
  destruct (readlines (u ++ String newline "")); discriminate.
Qed.

Lemma readlines_app (u t : string) :
  readlines ((u ++ String newline "") ++ t)
    = readlines (u ++ String newline "") ++ readlines t.
Proof.
  induction u as [|a u IH]; simpl.
  - reflexivity.
  - destruct (Ascii.eqb a newline); [now rewrite IH|].
    rewrite IH. pose proof (readlines_not_nil u) as Hn.
    destruct (readlines (u ++ String newline "")); [contradiction | reflexivity].
Qed.

(** A blank line after the last line of a file is one more line that is
    no comment. *)
Lemma non_comment_lines_blank (content : string) :
  content = EmptyString \/
  (exists u, content = (u ++ String newline "")%string) ->
  IO.non_comment_lines (content ++ String newline "")
    = IO.non_comment_lines content ++ [EmptyString].
Proof.
  unfold IO.non_comment_lines. intros [-> | [u ->]].
  - reflexivity.
  - rewrite readlines_app, map_app, filter_app. reflexivity.
Qed.

End Strip.

(** X8. The base version that [base_version] returns is the one line of
    the version file that is no comment, stripped: it has no space at
    either end, does not start with [#] and holds no newline. *)
Theorem base_version_line (w : IO.world) (v : option info) (l : string) :
  IO.base_version w v = Return l ->
  Os.strip l = l /\ Py.startswith l "#" = false /\
  Py.contains_char newline l = false /\
  exists i content,
    v = Some i /\
    IO.fs w (Os.path_join (toplevel i) BASE_VERSION_FILE) = Some content /\
    IO.non_comment_lines content = [l].
Proof.
  unfold IO.base_version. destruct v as [i|]; [|discriminate].
  destruct (IO.fs w _) as [content|] eqn:Hf; [|discriminate].
  destruct (IO.non_comment_lines content) as [|l0 [|l1 ls]] eqn:Hl;
    try discriminate.
  intros [= ->].
  destruct (non_comment_line content l) as (H1 & H2 & H3).
  { rewrite Hl. now left. }
  repeat split; try assumption. now exists i, content.
Qed.

Lemma base_version_line_witness :
  let w := IO.mk_world None
             (fun p => if String.eqb p "/srv/repo/version"
                       then Some "# the base version
  0.14rc2  
" else None) [] in
  IO.base_version w (Some (mk_info "release-0.14" "a1b2c3d" 249 "/srv/repo"))
    = Return "0.14rc2" /\
  Os.strip "0.14rc2" = "0.14rc2".
Proof.
  intros w. split; [reflexivity|].
  exact (proj1 (base_version_line w
                  (Some (mk_info "release-0.14" "a1b2c3d" 249 "/srv/repo"))
                  "0.14rc2" eq_refl)).
Defined.

(** X9. A blank line counts as a line of the version file: added after the
    last line of a file that [base_version] reads, it makes the call
    fail; added to a file of comments, it makes the call return the empty
    string. *)
Theorem base_version_blank_line (w w' : IO.world) (i : info) (content : string) :
  let path := Os.path_join (toplevel i) BASE_VERSION_FILE in
  IO.fs w path = Some content ->
  IO.fs w' path = Some (content ++ String newline "")%string ->
  content = EmptyString \/
  (exists u, content = (u ++ String newline "")%string) ->
  (forall l, IO.base_version w (Some i) = Return l ->
             IO.base_version w' (Some i) = Raise Not_a_single_line) /\
  (IO.non_comment_lines content = [] ->
   IO.base_version w' (Some i) = Return EmptyString).
Proof.
  intros path Hw Hw' Hend. unfold IO.base_version. fold path.
  rewrite Hw, Hw', (non_comment_lines_blank _ Hend). split.
  - intros l.
    destruct (IO.non_comment_lines content) as [|l0 [|l1 ls]];
      try discriminate; reflexivity.
  - now intros ->.
Qed.

Lemma base_version_blank_line_witness :
  let file content := fun p => if String.eqb p "/srv/repo/version"
                               then Some content else None in
  let i := mk_info "master" "a1b2c3d" 249 "/srv/repo" in
  IO.base_version (IO.mk_world None (file "0.14

") []) (Some i) = Raise Not_a_single_line /\
  IO.base_version (IO.mk_world None (file "# no version yet

") []) (Some i) = Return "".
Proof.
  intros file i. split.
  - refine (proj1 (base_version_blank_line
                     (IO.mk_world None (file "0.14
") [])
                     (IO.mk_world None (file "0.14

") []) i "0.14
" eq_refl eq_refl _) "0.14" eq_refl).
    right. now exists "0.14".
  - refine (proj2 (base_version_blank_line
                     (IO.mk_world None (file "# no version yet
") [])
                     (IO.mk_world None (file "# no version yet

") []) i "# no version yet
" eq_refl eq_refl _) eq_refl).
    right. now exists "# no version yet".
Defined.

Lemma python_version_mode_known (base_version : string) (v : info) (mode : string) (e : exn) :
  mode = "release" \/ mode = "snapshot" ->
  python_version base_version v mode = Raise e ->
  site e <> site_mode_should_be_one_of.
Proof.
  intros Hmode H. unfold python_version, bind in H.
  assert (Hok : negb (String.eqb mode "snapshot" || String.eqb mode "release") = false)
    by (destruct Hmode as [-> | ->]; reflexivity).
  rewrite Hok in H.
  repeat (case_step; try discriminate); injection H as <-; try discriminate.
  match goal with
  | Hbt : dict_get _ _ = Some ?bt, Hv : versioned ?bt = true,
    Hg : groupdict_get _ _ _ = Raise _ |- _ =>
      rewrite (groupdict_get_versioned _ _ _ Hbt Hv) in Hg; discriminate Hg
  end.
Qed.

(** X10. [build_mode] returns the value of [GITFLOW_BUILD_MODE] only when it
    is [release] or [snapshot]; so [get_python_version] and
    [get_debian_version] never fail with the complaint of [python_version]
    about the mode. *)
Theorem build_mode_checked (w : IO.world) :
  (forall mode, IO.build_mode w = Return mode ->
     (mode = "release" \/ mode = "snapshot") /\
     dict_get (IO.environ w) "GITFLOW_BUILD_MODE" = Some mode) /\
  (forall e, IO.get_python_version w = Raise (Raised e) \/
             IO.get_debian_version w = Raise (Raised e) ->
             site e <> site_mode_should_be_one_of).
Proof.
  assert (Hmode : forall mode, IO.build_mode w = Return mode ->
     (mode = "release" \/ mode = "snapshot") /\
     dict_get (IO.environ w) "GITFLOW_BUILD_MODE" = Some mode).
  { unfold IO.build_mode. intros mode.
    destruct (dict_get _ _) as [m|]; [|discriminate].
    destruct (String.eqb m "release") eqn:E1; simpl.
    - intros [= <-]. apply String.eqb_eq in E1. auto.
    - destruct (String.eqb m "snapshot") eqn:E2; [|discriminate].
      intros [= <-]. apply String.eqb_eq in E2. auto. }
  split; [exact Hmode|].
  intros e. unfold IO.get_python_version, IO.get_debian_version, debian_version, bind.
  destruct (vcs_info (IO.cwd w)) as [[i|]|e0] eqn:Hv; cbv beta iota delta [lift].
  - destruct (IO.base_version w (Some i)) as [b|e1] eqn:Hb.
    + destruct (IO.build_mode w) as [mode|e2] eqn:Hm.
      * destruct (Hmode mode eq_refl) as [Hk _].
        destruct (python_version b i mode) as [r|e3] eqn:Hp;
          cbv beta iota; intros [H|H]; try discriminate; injection H as <-;
          exact (python_version_mode_known _ _ _ _ Hk Hp).
      * unfold IO.build_mode in Hm.
        destruct (dict_get _ _) as [m|];
          [destruct (_ || _)|]; try discriminate;
          injection Hm as <-; intros [H|H]; discriminate.
    + unfold IO.base_version in Hb.
      destruct (IO.fs w _); [destruct (IO.non_comment_lines _) as [|? [|? ?]]|];
        try discriminate; injection Hb as <-; intros [H|H]; discriminate.
  - intros [H|H]; injection H as <-; discriminate.
  - unfold vcs_info in Hv. destruct (IO.cwd w) as [repo|]; [|discriminate].
    unfold bind in Hv.
    destruct (get_commit_id (head_commit repo) (head_name repo)) as [id|e4] eqn:Hid;
      [discriminate|].
    injection Hv as <-. unfold get_commit_id in Hid.
    intros [H|H]; injection H as <-; repeat (case_step; try discriminate);
      injection Hid as <-; discriminate.
Qed.

Lemma build_mode_checked_witness :
  let w := IO.mk_world None (fun _ => None) [("GITFLOW_BUILD_MODE", "snapshot")] in
  ("snapshot" = "release" \/ "snapshot" = "snapshot") /\
  dict_get (IO.environ w) "GITFLOW_BUILD_MODE" = Some "snapshot".
Proof.
  intros w. exact (proj1 (build_mode_checked w) "snapshot" eq_refl).
Defined.

Lemma sem_ends_with_eol (r : regex) start w rest gs :
  ends_with_eol r -> sem r start w rest gs -> line_end rest.
Proof.
  intros He H. induction H; simpl in He; try contradiction; auto.
Qed.

Lemma version_char_digit (a : ascii) :
  Ascii.leb "0" a && Ascii.leb a "9" = true -> version_char a = true.
Proof. intros H. unfold version_char. now rewrite (digit_range a H). Qed.

Lemma version_char_positive (a : ascii) :
  Ascii.leb "1" a && Ascii.leb a "9" = true -> version_char a = true.
Proof. intros H. unfold version_char. now rewrite (positive_range a H). Qed.

Lemma BRANCH_TYPES_version_char tag bt :
  dict_get BRANCH_TYPES tag = Some bt ->
  within version_char (allowed_version_re bt) /\ ends_with_eol (allowed_version_re bt).
Proof.
  unfold BRANCH_TYPES. cbn [dict_get].
  repeat (destruct (String.eqb _ tag);
          [intros [= <-]; simpl;
           repeat match goal with |- _ /\ _ => split end;
           first [exact I | exact version_char_digit | exact version_char_positive
                 | reflexivity]|]).
  discriminate.
Qed.

(** X11. What [get_python_version] returns, from the repository, the version
    file and the environment: in release mode the one line of the version
    file, in snapshot mode that line, the number of commits and the
    identifier of the head commit, joined by underscores; the line holds
    digits, dots and the letters of [next] and [rc] only. *)
Theorem get_python_version_value (w : IO.world) (r : string) :
  IO.get_python_version w = Return r ->
  exists repo content b id,
    IO.cwd w = Some repo /\
    IO.fs w (Os.path_join (working_dir repo) BASE_VERSION_FILE) = Some content /\
    IO.non_comment_lines content = [b] /\
    get_commit_id (head_commit repo) (head_name repo) = Return id /\
    all_chars version_char b = true /\
    ((dict_get (IO.environ w) "GITFLOW_BUILD_MODE" = Some "release" /\ r = b) \/
     (dict_get (IO.environ w) "GITFLOW_BUILD_MODE" = Some "snapshot" /\
      r = (b ++ "_" ++ Py.str_of_int (N.of_nat (List.length (iter_commits repo)))
             ++ "_" ++ id)%string)).
Proof.
  unfold IO.get_python_version, bind.
  destruct (vcs_info (IO.cwd w)) as [[i|]|e0] eqn:Hv;
    cbv beta iota delta [lift]; try discriminate.
  destruct (IO.base_version w (Some i)) as [b|e1] eqn:Hb; [|discriminate].
  destruct (IO.build_mode w) as [mode|e2] eqn:Hm; [|discriminate].
  destruct (python_version b i mode) as [r'|e3] eqn:Hp; [|discriminate].
  intros [= <-].
  unfold vcs_info, bind in Hv. destruct (IO.cwd w) as [repo|]; [|discriminate].
  destruct (get_commit_id (head_commit repo) (head_name repo)) as [id|] eqn:Hid;
    [|discriminate].
  injection Hv as <-.
  unfold IO.base_version in Hb. cbn [toplevel] in Hb.
  destruct (IO.fs w _) as [content|] eqn:Hf; [|discriminate].
  destruct (IO.non_comment_lines content) as [|l0 [|l1 ls]] eqn:Hl;
    try discriminate.
  injection Hb as ->.
  exists repo, content, b, id.
  split; [reflexivity|]. split; [exact Hf|]. split; [exact Hl|].
  split; [exact Hid|]. split.
  - destruct (python_version_Return _ _ _ _ Hp) as (bt & m & Hbt & Hmatch & _).
    destruct (BRANCH_TYPES_version_char _ _ Hbt) as [Hw He].
    destruct (re_match_sound _ _ _ Hmatch) as (u & t & E & Hsem).
    pose proof (sem_within version_char _ _ _ _ _ Hw Hsem) as Hu.
    destruct (non_comment_line content b) as (_ & _ & Hnl).
    { rewrite Hl. now left. }
    destruct (sem_ends_with_eol _ _ _ _ _ He Hsem) as [-> | ->].
    + now rewrite E, append_empty_r.
    + rewrite E, contains_char_app in Hnl. discriminate.
  - unfold IO.build_mode in Hm.
    destruct (dict_get (IO.environ w) "GITFLOW_BUILD_MODE") as [m|];
      [|discriminate].
    destruct (_ || _); [|discriminate]. injection Hm as ->.
    destruct (python_version_Return _ _ _ _ Hp) as (bt & m' & _ & _ & Hr).
    destruct Hr as [(Hmd & _ & Hr) | (Hmd & _ & Hr)]; [left | right];
      rewrite <- Hmd; split; first [reflexivity | exact Hr].
Qed.

Lemma get_python_version_value_witness :
  let root := Commit "0000000aaaaaaa" [] in
  let head := Commit "a1b2c3d4e5f6" [root] in
  let w := IO.mk_world
             (Some (mk_repo "release-0.14" head [head; root] "/srv/repo"))
             (fun p => if String.eqb p "/srv/repo/version"
                       then Some "# base version
0.14rc2
" else None)
             [("GITFLOW_BUILD_MODE", "snapshot")] in
  IO.get_python_version w = Return "0.14rc2_2_a1b2c3d" /\
  exists repo content b id,
    IO.cwd w = Some repo /\
    IO.fs w (Os.path_join (working_dir repo) BASE_VERSION_FILE) = Some content /\
    IO.non_comment_lines content = [b] /\
    get_commit_id (head_commit repo) (head_name repo) = Return id /\
    all_chars version_char b = true /\
    ((dict_get (IO.environ w) "GITFLOW_BUILD_MODE" = Some "release" /\
      "0.14rc2_2_a1b2c3d" = b) \/
     (dict_get (IO.environ w) "GITFLOW_BUILD_MODE" = Some "snapshot" /\
      "0.14rc2_2_a1b2c3d"
        = (b ++ "_" ++ Py.str_of_int (N.of_nat (List.length (iter_commits repo)))
             ++ "_" ++ id)%string)).
Proof.
  intros root head w. split; [reflexivity|].
  exact (get_python_version_value w "0.14rc2_2_a1b2c3d" eq_refl).
Defined.



(** ** The shape of versions *)

Lemma within_mono (P Q : ascii -> bool) (r : regex) :
  (forall a, P a = true -> Q a = true) -> within P r -> within Q r.
Proof.
  intros HPQ. induction r; simpl; auto.
  - intros [H1 H2]. auto.
Qed.

Lemma all_chars_mono (P Q : ascii -> bool) (s : string) :
  (forall a, P a = true -> Q a = true) ->
  all_chars P s = true -> all_chars Q s = true.
Proof.
  intros HPQ. induction s as [|a s IH]; simpl; [reflexivity|].
  intros H. apply andb_prop in H. destruct H as [Ha Hs].
  now rewrite (HPQ a Ha), IH.
Qed.

(** A base version that a pattern of the registry matches. *)
Lemma accepted_base_chars tag bt base_version m :
  dict_get BRANCH_TYPES tag = Some bt ->
  re_match (allowed_version_re bt) base_version = Some m ->
  all_chars base_char base_version = true.
Proof.
  intros Hbt Hm. destruct (BRANCH_TYPES_version_char _ _ Hbt) as [Hw He].
  apply (re_match_within base_char (allowed_version_re bt) base_version m);
    [|exact He|reflexivity|exact Hm].
  apply (within_mono version_char); [|exact Hw].
  intros a Ha. unfold base_char. now rewrite Ha.
Qed.

Lemma base_char_no_underscore (a : ascii) :
  base_char a = true -> no_underscore a = true.
Proof. destruct a as [[] [] [] [] [] [] [] []]; vm_compute; auto. Qed.

Lemma is_digit_no_underscore (a : ascii) :
  Py.is_digit a = true -> no_underscore a = true.
Proof. destruct a as [[] [] [] [] [] [] [] []]; vm_compute; auto. Qed.

Lemma is_digit_no_r (a : ascii) :
  Py.is_digit a = true -> no_r a = true.
Proof. destruct a as [[] [] [] [] [] [] [] []]; vm_compute; auto. Qed.

Lemma string_of_uint_digits (d : Decimal.uint) :
  all_chars Py.is_digit (NilEmpty.string_of_uint d) = true.
Proof. induction d; simpl; auto. Qed.

Lemma str_of_int_digits (n : N) : all_chars Py.is_digit (Py.str_of_int n) = true.
Proof.
  unfold Py.str_of_int, NilZero.string_of_uint.
  destruct (N.to_uint n) eqn:E; try reflexivity;
    rewrite <- E; apply string_of_uint_digits.
Qed.

Lemma N_to_uint_nonnil (n : N) : N.to_uint n <> Decimal.Nil.
Proof.
  destruct n as [|p]; [discriminate|]. apply DecimalPos.Unsigned.to_uint_nonnil.
Qed.

(** The decimal numeral of a number tells the number. *)
Lemma str_of_int_inj (n1 n2 : N) : Py.str_of_int n1 = Py.str_of_int n2 -> n1 = n2.
Proof.
  unfold Py.str_of_int. intros H.
  apply (f_equal NilZero.uint_of_string) in H.
  rewrite !NilZero.usu in H by apply N_to_uint_nonnil.
  injection H as H. apply (f_equal N.of_uint) in H.
  now rewrite !DecimalN.Unsigned.of_to in H.
Qed.

(** A text is cut in one way only at the first occurrence of a
    character. *)
Lemma cut_at_first (c : ascii) (x1 x2 y1 y2 : string) :
  all_chars (fun a => negb (Ascii.eqb a c)) x1 = true ->
  all_chars (fun a => negb (Ascii.eqb a c)) x2 = true ->
  (x1 ++ String c y1 = x2 ++ String c y2)%string ->
  x1 = x2 /\ y1 = y2.
Proof.
  revert x2. induction x1 as [|a x1 IH]; intros [|b x2]; simpl.
  - intros _ _ [= ->]. auto.
  - intros _ H [= <- _]. rewrite Ascii.eqb_refl in H. discriminate.
  - intros H _ [= -> _]. rewrite Ascii.eqb_refl in H. discriminate.
  - intros H1 H2 [= -> E]. apply andb_prop in H1, H2.
    destruct (IH x2 (proj2 H1) (proj2 H2) E) as [-> ->]. auto.
Qed.

(** X13. A snapshot version tells what it was made of: two calls in
    snapshot mode that return the same version had the same base version,
    the same revision number and the same commit identifier. *)
Theorem snapshot_version_parts (b1 b2 : string) (v1 v2 : info) (r : string) :
  python_version b1 v1 "snapshot" = Return r ->
  python_version b2 v2 "snapshot" = Return r ->
  b1 = b2 /\ revno v1 = revno v2 /\ revid v1 = revid v2.
Proof.
  intros H1 H2.
  destruct (python_version_Return _ _ _ _ H1) as (bt1 & m1 & Hbt1 & Hm1 & Hr1).
  destruct (python_version_Return _ _ _ _ H2) as (bt2 & m2 & Hbt2 & Hm2 & Hr2).
  destruct Hr1 as [(E & _) | (_ & _ & E1)]; [discriminate|].
  destruct Hr2 as [(E & _) | (_ & _ & E2)]; [discriminate|].
  pose proof (all_chars_mono _ _ _ base_char_no_underscore
                (accepted_base_chars _ _ _ _ Hbt1 Hm1)) as U1.
  pose proof (all_chars_mono _ _ _ base_char_no_underscore
                (accepted_base_chars _ _ _ _ Hbt2 Hm2)) as U2.
  rewrite E1 in E2. simpl in E2.
  destruct (cut_at_first "_" _ _ _ _ U1 U2 E2) as [-> E3].
  destruct (cut_at_first "_" _ _ _ _
              (all_chars_mono _ _ _ is_digit_no_underscore (str_of_int_digits _))
              (all_chars_mono _ _ _ is_digit_no_underscore (str_of_int_digits _))
              E3) as [En ->].
  split; [reflexivity|]. split; [|reflexivity].
  now apply str_of_int_inj.
Qed.

Lemma snapshot_version_parts_witness :
  "0.14rc2" = "0.14rc2" /\ 249%N = 249%N /\ "a1b2c3d" = "a1b2c3d".
Proof.
  exact (snapshot_version_parts "0.14rc2" "0.14rc2"
           (mk_info "release-0.14" "a1b2c3d" 249 "/srv/repo")
           (mk_info "debian-release-0.14-rc" "a1b2c3d" 249 "/tmp/df-repo")
           "0.14rc2_249_a1b2c3d" eq_refl eq_refl).
Defined.

Section ReplaceFacts.

Let U := Py.replace "_" "~" None.
Let R := Py.replace "rc" "~rc" None.

Lemma replace_underscore_app (x y : string) : U (x ++ y) = (U x ++ U y)%string.
Proof.
  induction x as [|a x IH]; [reflexivity|].
  cbn [String.append]. unfold U in *.
  now rewrite !replace_underscore_cons, IH.
Qed.

Lemma replace_underscore_plain (x : string) :
  all_chars no_underscore x = true -> U x = x.
Proof.
  induction x as [|a x IH]; [reflexivity|].
  cbn [all_chars]. intros H. apply andb_prop in H. destruct H as [Ha Hx].
  unfold U in *. rewrite replace_underscore_cons, (IH Hx).
  unfold no_underscore in Ha. apply negb_true_iff in Ha. now rewrite Ha.
Qed.

Lemma prefix_rc_no_r (a : ascii) (s : string) :
  no_r a = true -> String.prefix "rc" (String a s) = false.
Proof.
  unfold no_r. intros Ha. cbn [String.prefix].
  destruct (ascii_dec "r" a) as [<-|]; [discriminate | reflexivity].
Qed.

Lemma replace_rc_plain_app (x y : string) :
  all_chars no_r x = true -> R (x ++ y) = (x ++ R y)%string.
Proof.
  induction x as [|a x IH]; [reflexivity|].
  cbn [all_chars String.append]. intros H. apply andb_prop in H.
  destruct H as [Ha Hx]. unfold R in *.
  now rewrite (replace_rc_miss a (x ++ y) (prefix_rc_no_r a _ Ha)), (IH Hx).
Qed.

Lemma replace_rc_plain (x : string) : all_chars no_r x = true -> R x = x.
Proof.
  intros H. rewrite <- (append_empty_r x) at 1.
  now rewrite (replace_rc_plain_app x "" H), append_empty_r.
Qed.

(** The replacement goes through a junction that cannot hold an [rc]. *)
Lemma replace_rc_app_upto (n : nat) (x y : string) :
  String.length x <= n ->
  String.prefix "c" y = false ->
  R (x ++ y) = (R x ++ R y)%string.
Proof.
  revert x. induction n as [|n IH]; intros x Hlen Hy.
  - destruct x; [reflexivity | simpl in Hlen; lia].
  - destruct (replace_rc_cases x) as [-> | [[t [-> E]] | [a [t [-> [M E]]]]]].
    + reflexivity.
    + fold R in E. rewrite E.
      change (("rc" ++ t) ++ y)%string with ("rc" ++ (t ++ y))%string.
      unfold R. rewrite replace_rc_hit. fold R.
      rewrite IH; [reflexivity | simpl in Hlen; lia | exact Hy].
    + fold R in E. rewrite E. cbn [String.append].
      unfold R. rewrite replace_rc_miss; fold R.
      * rewrite IH; [reflexivity | simpl in Hlen; lia | exact Hy].
      * cbn [String.prefix] in *. destruct (ascii_dec "r" a); [|reflexivity].
        destruct t as [|b t]; [exact Hy|].
        cbn [String.append String.prefix] in *.
        destruct (ascii_dec "c" b); [|reflexivity].
        rewrite prefix_empty in M. discriminate M.
Qed.

Lemma replace_rc_app (x y : string) :
  String.prefix "c" y = false -> R (x ++ y) = (R x ++ R y)%string.
Proof. apply (replace_rc_app_upto (String.length x)). apply le_n. Qed.

End ReplaceFacts.

Lemma no_r_digit (a : ascii) :
  Ascii.leb "0" a && Ascii.leb a "9" = true -> no_r a = true.
Proof. destruct a as [[] [] [] [] [] [] [] []]; vm_compute; auto. Qed.

Lemma no_r_positive (a : ascii) :
  Ascii.leb "1" a && Ascii.leb a "9" = true -> no_r a = true.
Proof. destruct a as [[] [] [] [] [] [] [] []]; vm_compute; auto. Qed.

Lemma digit_or_dot_no_r (a : ascii) :
  digit_or_dot a = true -> no_r a = true.
Proof. destruct a as [[] [] [] [] [] [] [] []]; vm_compute; auto. Qed.

Lemma plain_char_no_r (a : ascii) :
  plain_char a = true -> no_r a = true.
Proof. unfold plain_char. intros H. now apply andb_prop in H. Qed.

Lemma plain_char_no_underscore (a : ascii) :
  plain_char a = true -> no_underscore a = true.
Proof. unfold plain_char. intros H. now apply andb_prop in H. Qed.

(** Only the pattern of [release] lets an [r] by. *)
Lemma BRANCH_TYPES_no_r tag bt :
  dict_get BRANCH_TYPES tag = Some bt ->
  tag <> "release" ->
  within no_r (allowed_version_re bt).
Proof.
  unfold BRANCH_TYPES. cbn [dict_get]. intros Hbt Hne. revert Hbt.
  destruct (String.eqb "release" tag) eqn:Hrel.
  { apply String.eqb_eq in Hrel. now elim Hne. }
  clear Hrel.
  repeat (destruct (String.eqb _ tag);
          [intros [= <-]; simpl;
           repeat match goal with |- _ /\ _ => split end;
           first [exact I | exact no_r_digit | exact no_r_positive | reflexivity]|]).
  discriminate.
Qed.

Lemma line_end_no_r (t : string) :
  line_end t -> all_chars no_r t = true.
Proof. now intros [-> | ->]. Qed.

(** X14. The package version of a commit whose identifier holds neither [r]
    nor an underscore: the base version with a tilde before its [rc], then
    in snapshot mode a tilde, the revision number, a tilde and the commit
    identifier, then [-1].  Only on a release branch does the base version
    change, from [F rc N] to [F ~rc N]. *)
Theorem debian_version_shape (base_version : string) (v : info) (mode d : string) :
  let brnorm := normalize_branch_name (branch v) in
  let tag := get_branch_type brnorm in
  let base' := Py.replace "rc" "~rc" None base_version in
  debian_version base_version v mode = Return d ->
  all_chars plain_char (revid v) = true ->
  ((mode = "release" /\ d = (base' ++ "-1")%string) \/
   (mode = "snapshot" /\
    d = (base' ++ "~" ++ Py.str_of_int (revno v) ++ "~" ++ revid v ++ "-1")%string)) /\
  (tag = "release" ->
   exists frag suffix,
     nth_error (Py.split "-" brnorm) 1 = Some frag /\
     base_version = (frag ++ "rc" ++ suffix)%string /\
     base' = (frag ++ "~rc" ++ suffix)%string) /\
  (tag <> "release" -> base' = base_version).
Proof.
  intros brnorm tag base' H Hid. unfold debian_version, bind in H.
  destruct (python_version base_version v mode) as [p|] eqn:Hp; [|discriminate].
  injection H as <-.
  destruct (python_version_Return _ _ _ _ Hp) as (bt & m & Hbt & Hm & Hr).
  fold brnorm tag in Hbt.
  pose proof (all_chars_mono _ _ _ base_char_no_underscore
                (accepted_base_chars _ _ _ _ Hbt Hm)) as Hu.
  split; [|split].
  - unfold debian_version_from_python_version.
    destruct Hr as [(-> & _ & ->) | (-> & _ & ->)]; [left | right];
      (split; [reflexivity|]).
    + now rewrite (replace_underscore_plain _ Hu).
    + rewrite !replace_underscore_app, (replace_underscore_plain _ Hu).
      rewrite (replace_underscore_plain (Py.str_of_int (revno v)))
        by exact (all_chars_mono _ _ _ is_digit_no_underscore (str_of_int_digits _)).
      rewrite (replace_underscore_plain (revid v))
        by exact (all_chars_mono _ _ _ plain_char_no_underscore Hid).
      change (Py.replace "_" "~" None "_") with "~".
      rewrite (replace_rc_app base_version) by reflexivity.
      fold base'.
      rewrite (replace_rc_plain ("~" ++ Py.str_of_int (revno v) ++ "~" ++ revid v)).
      * rewrite !append_assoc. simpl. now rewrite ?append_assoc.
      * simpl. rewrite !all_chars_app. simpl.
        rewrite (all_chars_mono _ _ _ is_digit_no_r (str_of_int_digits _)).
        now rewrite (all_chars_mono _ _ _ plain_char_no_r Hid).
  - intros Htag.
    destruct (python_version_Return_versioned base_version v mode p
                (mk_branch_type true true true
                   (Cat Bol (Cat (Group (Some "bverstr") VERSION_RE)
                                 (Cat (Word "rc") (Cat positive Eol))))) Hp)
      as (frag & m' & Hnth & Hm' & Hg).
    { fold brnorm tag. now rewrite Htag. }
    { reflexivity. }
    cbn [allowed_version_re] in Hm'.
    destruct (re_match_sound _ _ _ Hm') as (w & t & E & Hsem).
    destruct (sem_release_pattern _ _ _ Hsem) as (g & k & -> & -> & Hd & Hk & Ht).
    injection Hg as ->.
    exists frag, (k ++ t)%string. split; [exact Hnth|].
    assert (Eb : base_version = (frag ++ "rc" ++ k ++ t)%string)
      by (rewrite E; simpl; now rewrite !append_assoc).
    split; [exact Eb|]. unfold base'. rewrite Eb.
    rewrite (replace_rc_plain_app frag)
      by exact (all_chars_mono _ _ _ digit_or_dot_no_r Hd).
    change ("rc" ++ k ++ t)%string with ("rc" ++ (k ++ t))%string.
    rewrite replace_rc_hit. f_equal. f_equal.
    apply replace_rc_plain. rewrite all_chars_app.
    destruct Hk as (d0 & ds & -> & Hd0 & Hds). simpl.
    rewrite (no_r_positive _ Hd0), (all_chars_mono _ _ _ is_digit_no_r Hds).
    now rewrite (line_end_no_r _ Ht).
  - intros Htag. unfold base'. apply replace_rc_plain.
    apply (re_match_within _ (allowed_version_re bt) base_version m);
      [exact (BRANCH_TYPES_no_r _ _ Hbt Htag)
      | exact (proj2 (BRANCH_TYPES_version_char _ _ Hbt))
      | reflexivity | exact Hm].
Qed.

Lemma debian_version_shape_witness :
  (("snapshot" = "release" /\
    "0.14~rc2~249~a1b2c3d-1" = (Py.replace "rc" "~rc" None "0.14rc2" ++ "-1")%string) \/
   ("snapshot" = "snapshot" /\
    "0.14~rc2~249~a1b2c3d-1"
      = (Py.replace "rc" "~rc" None "0.14rc2" ++ "~" ++ Py.str_of_int 249 ++ "~"
           ++ "a1b2c3d" ++ "-1")%string)) /\
  Py.replace "rc" "~rc" None "0.14next" = "0.14next".
Proof.
  split.
  - exact (proj1 (debian_version_shape "0.14rc2"
                    (mk_info "release-0.14" "a1b2c3d" 249 "/srv/repo") "snapshot"
                    "0.14~rc2~249~a1b2c3d-1" eq_refl eq_refl)).
  - refine (proj2 (proj2 (debian_version_shape "0.14next"
                            (mk_info "develop" "a1b2c3d" 249 "/srv/repo") "snapshot"
                            "0.14next~249~a1b2c3d-1" eq_refl eq_refl)) _).
    discriminate.
Defined.

(** The replacement keeps a text within an alphabet that holds the
    tilde. *)
Lemma replace_rc_all_chars (P : ascii -> bool) (n : nat) :
  P "~"%char = true ->
  forall t, String.length t <= n -> all_chars P t = true ->
  all_chars P (Py.replace "rc" "~rc" None t) = true.
Proof.
  intros Ht. induction n as [|n IH]; intros t Hlen Hall.
  - destruct t; [reflexivity | simpl in Hlen; lia].
  - destruct (replace_rc_cases t) as [-> | [[t' [-> ->]] | [a [t' [-> [_ ->]]]]]].
    + reflexivity.
    + simpl in Hall |- *. apply andb_prop in Hall. destruct Hall as [Hr Hall].
      apply andb_prop in Hall. destruct Hall as [Hc Hall].
      rewrite Ht, Hr, Hc. simpl. apply IH; [simpl in Hlen; lia | exact Hall].
    + simpl in Hall |- *. apply andb_prop in Hall. destruct Hall as [Ha Hall].
      rewrite Ha. simpl. apply IH; [simpl in Hlen; lia | exact Hall].
Qed.

Lemma replace_underscore_all (s : string) :
  all_chars no_underscore (Py.replace "_" "~" None s) = true.
Proof.
  induction s as [|a s IH]; [reflexivity|].
  rewrite replace_underscore_cons. simpl. rewrite IH.
  unfold no_underscore. now destruct (Ascii.eqb a "_") eqn:E; [|rewrite E].
Qed.

(** X15. A package version never holds an underscore, whatever the Python
    version is, and ends with the revision [-1]. *)
Theorem debian_version_from_python_version_form (pyver : string) :
  exists upstream,
    debian_version_from_python_version pyver = (upstream ++ "-1")%string /\
    all_chars no_underscore upstream = true /\
    all_chars no_underscore (debian_version_from_python_version pyver) = true.
Proof.
  unfold debian_version_from_python_version.
  assert (H : all_chars no_underscore
                (Py.replace "rc" "~rc" None (Py.replace "_" "~" None pyver)) = true).
  { apply (replace_rc_all_chars no_underscore
             (String.length (Py.replace "_" "~" None pyver)));
      [reflexivity | apply le_n | apply replace_underscore_all]. }
  eexists. split; [reflexivity|]. split; [exact H|].
  now rewrite all_chars_app, H.
Qed.

Lemma debian_version_inj_witness :
  "0.14rc2_249_a1b2c3d" = "0.14rc2_249_a1b2c3d".
Proof.
  exact (debian_version_inj "0.14rc2" "0.14rc2"
           (mk_info "release-0.14" "a1b2c3d" 249 "/srv/repo")
           (mk_info "debian-release-0.14" "a1b2c3d" 249 "/tmp/df-repo")
           "snapshot" "snapshot" "0.14rc2_249_a1b2c3d" "0.14rc2_249_a1b2c3d"
           eq_refl eq_refl eq_refl eq_refl eq_refl).
Defined.

(** ** Rewriting the version file *)

Section ReplaceAny.

Variables (h : ascii) (old' new : string).
Let old := String h old'.


Lemma prefix_length (x y : string) :
  String.prefix x y = true -> String.length x <= String.length y.
Proof.
  revert y. induction x as [|a x IH]; intros y H; [simpl; lia|].
  destruct y as [|b y]; [discriminate|]. cbn [String.prefix] in H.
  destruct (ascii_dec a b); [|discriminate]. simpl. apply IH in H. lia.
Qed.












End ReplaceAny.

Section StripFacts.

Import Os.















End StripFacts.

(** ** Rewriting the version file *)

Section BumpLine.

Import Os.

Variables (h : ascii) (old' new : string).
Let old := String h old'.

Hypothesis old_head_visible : is_space h = false.
Hypothesis old_head_no_comment : Ascii.eqb h "#" = false.
Hypothesis old_one_line : Py.contains_char newline old = false.
Hypothesis new_not_empty : new <> EmptyString.
Hypothesis new_one_line : Py.contains_char newline new = false.
Hypothesis new_stripped : strip new = new.
Hypothesis new_no_comment : Py.startswith new "#" = false.











End BumpLine.










(** ** The branch that [autopkg] starts from *)

Section BranchCheck.

Import Autopkg.

Lemma str_in_empty (sub : string) : str_in sub "" = true -> sub = EmptyString.
Proof. destruct sub; [reflexivity | discriminate]. Qed.

Lemma str_in_nil (s : string) : str_in "" s = true.
Proof. destruct s; cbn [str_in]; now rewrite prefix_empty. Qed.

Lemma prefix_app_l (sub x y : string) :
  String.prefix sub x = true -> String.prefix sub (x ++ y) = true.
Proof.
  revert x. induction sub as [|a sub IH]; intros x H; [apply prefix_empty|].
  destruct x as [|b x]; [discriminate|]. cbn [String.append String.prefix] in H |- *.
  destruct (ascii_dec a b); [now apply IH | discriminate].
Qed.

Lemma str_in_app_l (sub x y : string) :
  str_in sub x = true -> str_in sub (x ++ y) = true.
Proof.
  induction x as [|a x IH]; intros H.
  - apply str_in_empty in H. subst sub. apply str_in_nil.
  - cbn [str_in] in H. apply orb_prop in H. cbn [String.append str_in].
    destruct H as [H|H].
    + change (String a (x ++ y)) with (String a x ++ y)%string.
      now rewrite (prefix_app_l _ _ y H).
    + rewrite (IH H). apply orb_true_r.
Qed.

Lemma str_in_app_r (sub x y : string) :
  str_in sub y = true -> str_in sub (x ++ y) = true.
Proof.
  intros H. induction x as [|a x IH]; [exact H|].
  cbn [String.append str_in]. rewrite IH. apply orb_true_r.
Qed.

(** A name of the list occurs in the names joined. *)
Lemma str_in_join (sep sub : string) (l : list string) :
  (exists k, In k l /\ str_in sub k = true) -> str_in sub (join sep l) = true.
Proof.
  intros (k & Hin & Hk). induction l as [|x xs IH]; [contradiction|].
  cbn [join]. destruct xs as [|y ys].
  - destruct Hin as [->|[]]. exact Hk.
  - destruct Hin as [->|Hin].
    + now apply str_in_app_l.
    + apply str_in_app_r, str_in_app_r. now apply IH.
Qed.

(** An occurrence that starts before a character it does not hold ends
    before it. *)
Lemma prefix_before (c : ascii) (sub x y : string) :
  Py.contains_char c sub = false ->
  String.prefix sub (x ++ String c y) = true -> String.prefix sub x = true.
Proof.
  revert x. induction sub as [|a sub IH]; intros x Hc H; [apply prefix_empty|].
  cbn [Py.contains_char] in Hc. destruct (Ascii.eqb a c) eqn:E; [discriminate|].
  destruct x as [|b x]; cbn [String.append String.prefix] in H |- *.
  - destruct (ascii_dec a c) as [->|]; [|discriminate].
    rewrite Ascii.eqb_refl in E. discriminate.
  - destruct (ascii_dec a b); [now apply (IH x) | discriminate].
Qed.

Lemma str_in_cons (c : ascii) (sub s : string) :
  Py.contains_char c sub = false -> sub <> EmptyString ->
  str_in sub (String c s) = true -> str_in sub s = true.
Proof.
  intros Hc Hne H. cbn [str_in] in H. apply orb_prop in H.
  destruct H as [H|H]; [|exact H].
  destruct sub as [|a sub]; [contradiction|].
  cbn [Py.contains_char] in Hc. cbn [String.prefix] in H.
  destruct (ascii_dec a c) as [->|]; [|discriminate].
  rewrite Ascii.eqb_refl in Hc. discriminate.
Qed.

(** No occurrence lies across a separator. *)
Lemma str_in_app_sep (sub x y : string) :
  Py.contains_char "," sub = false -> Py.contains_char " " sub = false ->
  str_in sub (x ++ ", " ++ y) = true ->
  str_in sub x = true \/ str_in sub y = true.
Proof.
  intros Hc Hs. destruct sub as [|a0 sub0] eqn:Es.
  { intros _. left. apply str_in_nil. }
  rewrite <- Es in *. assert (Hne : sub <> EmptyString) by (rewrite Es; discriminate).
  clear Es. induction x as [|a x IH]; intros H.
  - right. cbn [String.append] in H.
    apply (str_in_cons "," sub _ Hc Hne) in H.
    exact (str_in_cons " " sub _ Hs Hne H).
  - cbn [String.append str_in] in H. apply orb_prop in H. destruct H as [H|H].
    + left. cbn [str_in].
      change (String a (x ++ String "," (String " " y)))
        with (String a x ++ String "," (String " " y))%string in H.
      now rewrite (prefix_before "," sub (String a x) _ Hc H).
    + destruct (IH H) as [Hx|Hy]; [left | now right].
      cbn [str_in]. rewrite Hx. apply orb_true_r.
Qed.

Lemma str_in_join_inv (sub : string) (l : list string) :
  Py.contains_char "," sub = false -> Py.contains_char " " sub = false ->
  l <> [] ->
  str_in sub (join ", " l) = true -> exists k, In k l /\ str_in sub k = true.
Proof.
  intros Hc Hs. induction l as [|x xs IH]; [contradiction|].
  intros _ H. cbn [join] in H. destruct xs as [|y ys].
  - exists x. split; [now left | exact H].
  - destruct (str_in_app_sep sub x _ Hc Hs H) as [Hx|Hr].
    + exists x. split; [now left | exact Hx].
    + destruct (IH ltac:(discriminate) Hr) as (k & Hin & Hk).
      exists k. split; [now right | exact Hk].
Qed.

End BranchCheck.

(** X18. The check that [autopkg] makes on the name of the branch looks
    for the first piece of the name in the branch type names joined by
    commas: for a piece with no comma and no blank, the branch is refused
    exactly when the piece occurs in none of the names, whatever the order
    in which the names come.  The piece need not be one of the names: a
    part of one passes. *)
Theorem branch_check_refuses (keys references : list string) (branch : string) :
  let piece := hd EmptyString (Py.split "-" branch) in
  keys <> [] ->
  Py.contains_char "," piece = false -> Py.contains_char " " piece = false ->
  (Autopkg.debian_branches keys references branch
     = Raise (Autopkg.Malformed_branch branch (Autopkg.join ", " keys))
   <-> forall k, In k keys -> Autopkg.str_in piece k = false).
Proof.
  intros piece Hk Hc Hs. unfold Autopkg.debian_branches. fold piece.
  destruct (Autopkg.str_in piece (Autopkg.join ", " keys)) eqn:E; cbn [negb].
  - split.
    + intros H. exfalso.
      destruct (existsb _ references); cbn [negb] in H; [discriminate|].
      destruct (dict_get _ _); discriminate.
    + intros H. destruct (str_in_join_inv piece keys Hc Hs Hk E) as (k & Hin & Hin').
      rewrite (H k Hin) in Hin'. discriminate.
  - split; [|reflexivity]. intros _ k Hin.
    destruct (Autopkg.str_in piece k) eqn:Ek; [|reflexivity].
    rewrite (str_in_join ", " piece keys) in E; [discriminate|].
    now exists k.
Qed.

Lemma branch_check_refuses_witness :
  let keys := ["master"; "hotfix"; "feature"; "release"; "develop"] in
  (Autopkg.debian_branches keys ["origin/debian-fix-1"] "fix-1"
     = Raise (Autopkg.Malformed_branch "fix-1" (Autopkg.join ", " keys))
   <-> forall k, In k keys -> Autopkg.str_in "fix" k = false) /\
  Autopkg.debian_branches keys ["origin/debian-fix-1"] "fix-1"
    = Return ("debian-fix-1", "origin/debian-fix-1") /\
  Autopkg.debian_branches keys [] "fix-1"
    = Raise (Autopkg.Malformed_type "fix" (Autopkg.join ", " keys)).
Proof.
  intros keys. split; [|split; reflexivity].
  apply (branch_check_refuses keys ["origin/debian-fix-1"] "fix-1");
    [discriminate | reflexivity | reflexivity].
Defined.



Lemma packaging_branch_piece (branch : string) :
  Py.startswith branch "debian-" || String.eqb branch "debian" = true ->
  hd EmptyString (Py.split "-" branch) = "debian".
Proof.
  intros H. apply orb_prop in H. destruct H as [H|H].
  - destruct (prefix_split _ _ H) as [t ->].
    change ("debian-" ++ t)%string with ("debian" ++ String "-" t)%string.
    now rewrite split_at_first.
  - apply String.eqb_eq in H. now subst.
Qed.

(** X19. [autopkg] does not start from a packaging branch: on [debian]
    and on a branch [debian-...] the check of the name raises its
    [ValueError], in whatever order the branch types come, although the
    generator classifies these branches. *)
Theorem packaging_branch_refused (keys references : list string) (branch : string) :
  (forall k, In k keys <-> In k (map fst Autopkg.BRANCH_TYPES)) ->
  Py.startswith branch "debian-" || String.eqb branch "debian" = true ->
  Autopkg.debian_branches keys references branch
    = Raise (Autopkg.Malformed_branch branch (Autopkg.join ", " keys)).
Proof.
  intros Hkeys Hb. unfold Autopkg.debian_branches.
  rewrite (packaging_branch_piece branch Hb).
  destruct (Autopkg.str_in "debian" (Autopkg.join ", " keys)) eqn:E;
    [|reflexivity].
  exfalso.
  destruct (str_in_join_inv "debian" keys eq_refl eq_refl) as (k & Hin & Hk).
  - intros ->. destruct (proj2 (Hkeys "master")); cbn; tauto.
  - exact E.
  - apply Hkeys in Hin. cbn in Hin.
    repeat (destruct Hin as [<-|Hin]; [discriminate Hk|]). exact Hin.
Qed.

Lemma packaging_branch_refused_witness :
  Autopkg.debian_branches ["hotfix"; "master"; "release"; "develop"; "feature"]
                          ["origin/debian-release-0.14"] "debian-release-0.14"
    = Raise (Autopkg.Malformed_branch "debian-release-0.14"
               "hotfix, master, release, develop, feature").
Proof.
  apply (packaging_branch_refused
           ["hotfix"; "master"; "release"; "develop"; "feature"]
           ["origin/debian-release-0.14"] "debian-release-0.14");
    [intros k; cbn; tauto | reflexivity].
Defined.



(** ** The changelog of a snapshot *)

Section ReplaceLength.

Variables (h : ascii) (old' new : string).
Let old := String h old'.

(** Each occurrence replaced changes the length by that of [new] less
    that of [old]. *)
Lemma length_replace_from (s : string) (k : nat) :
  String.length (Py.replace_from old new None k s)
    + String.length old * count_from old k s + Nat.min k (String.length s)
  = String.length s + String.length new * count_from old k s.
Proof.
  revert k. induction s as [|a s IH]; intros k.
  - cbn. lia.
  - cbn [Py.replace_from count_from]. destruct k as [|k].
    + destruct (String.prefix old (String a s)) eqn:P.
      * cbn [option_map]. rewrite length_append.
        specialize (IH (Nat.pred (String.length old))).
        apply prefix_length in P.
        change (String.length old) with (S (String.length old')) in *.
        cbn [Nat.pred String.length] in *. nia.
      * specialize (IH 0). cbn [String.length] in *. lia.
    + specialize (IH k). cbn [String.length] in *. lia.
Qed.

Lemma length_replace (s : string) :
  String.length (Py.replace old new None s) + String.length old * count old s
  = String.length s + String.length new * count old s.
Proof.
  unfold Py.replace, count. pose proof (length_replace_from s 0) as H.
  cbn [Nat.min] in H. lia.
Qed.

End ReplaceLength.

Lemma writelines_readlines (content : string) :
  Os.writelines (Os.readlines content) = content.
Proof.
  induction content as [|c s IH]; [reflexivity|].
  cbn [Os.readlines]. destruct (Ascii.eqb c newline).
  - cbn [Os.writelines String.append]. now rewrite IH.
  - destruct (Os.readlines s) as [|l ls]; cbn [Os.writelines String.append] in *.
    + now rewrite <- IH.
    + now rewrite IH.
Qed.

Lemma drop_all (n : nat) (s : string) :
  String.length s <= n -> Py.drop n s = EmptyString.
Proof.
  revert s. induction n as [|n IH]; intros s H.
  - destruct s; [reflexivity | simpl in H; lia].
  - destruct s as [|a s]; [reflexivity|]. simpl in H |- *. apply IH. lia.
Qed.

Lemma length_drop (n : nat) (s : string) :
  String.length (Py.drop n s) = String.length s - n.
Proof.
  revert s. induction n as [|n IH]; intros s.
  - simpl. lia.
  - destruct s as [|a s]; [reflexivity|]. simpl. apply IH.
Qed.

(** X21. The changelog that a snapshot build leaves.  The file is written
    from its start and not truncated: it holds the lines with [UNRELEASED]
    replaced in the first and the third, and after them what is left of
    the old content where the new one is shorter.  Each occurrence in the
    first line takes two characters away and each one in the third line
    adds six, so the old content shows for [2 * c0 - 6 * c2] characters,
    and not at all where the first line has at most three times the
    occurrences of the third. *)
Theorem snapshot_changelog_written
        (content l0 l1 l2 : string) (rest : list string) :
  Os.readlines content = l0 :: l1 :: l2 :: rest ->
  let lines := Py.replace "UNRELEASED" "unstable" None l0 :: l1
               :: Py.replace "UNRELEASED" "Snapshot version" None l2 :: rest in
  let c0 := count "UNRELEASED" l0 in
  let c2 := count "UNRELEASED" l2 in
  exists stale,
    snapshot_changelog content = Return (Os.writelines lines ++ stale)%string /\
    stale = Py.drop (String.length content - String.length stale) content /\
    String.length stale = 2 * c0 - 6 * c2 /\
    (c0 <= 3 * c2 -> snapshot_changelog content = Return (Os.writelines lines)).
Proof.
  intros Hl lines c0 c2.
  assert (Hs : snapshot_changelog content
               = Return (overwrite content (Os.writelines lines))).
  { unfold snapshot_changelog. rewrite Hl. reflexivity. }
  assert (Hlen : String.length (Os.writelines lines) + 2 * c0
                 = String.length content + 6 * c2).
  { rewrite <- (writelines_readlines content) at 1. rewrite Hl.
    unfold lines. cbn [Os.writelines]. rewrite !length_append.
    pose proof (length_replace "U" "NRELEASED" "unstable" l0) as H0.
    pose proof (length_replace "U" "NRELEASED" "Snapshot version" l2) as H2.
    fold c0 in H0. fold c2 in H2.
    change (String.length "UNRELEASED") with 10 in *.
    change (String.length "unstable") with 8 in *.
    change (String.length "Snapshot version") with 16 in *. lia. }
  exists (Py.drop (String.length (Os.writelines lines)) content).
  pose proof (length_drop (String.length (Os.writelines lines)) content) as Hd.
  split; [exact Hs|]. split; [|split].
  - rewrite Hd.
    destruct (Nat.le_gt_cases (String.length content)
                              (String.length (Os.writelines lines))) as [Hle|Hgt].
    + rewrite (drop_all _ _ Hle).
      replace (String.length content - (String.length content
                 - String.length (Os.writelines lines)))
        with (String.length content) by lia.
      symmetry. apply drop_all. lia.
    + f_equal. lia.
  - rewrite Hd. lia.
  - intros Hc. rewrite Hs. unfold overwrite.
    rewrite drop_all by lia. now rewrite append_empty_r.
Qed.

Lemma snapshot_changelog_written_witness :
  let l0 := "devflow (0.14next-1) UNRELEASED; urgency=low
" in
  let l1 := "
" in
  let l2 := "  * Fix the build
" in
  let rest := ["
"; " -- A. Maintainer <am@example.org>  Mon, 04 Mar 2013 12:00:00 +0200
"] in
  let content := Os.writelines (l0 :: l1 :: l2 :: rest) in
  snapshot_changelog content
    = Return "devflow (0.14next-1) unstable; urgency=low

  * Fix the build

 -- A. Maintainer <am@example.org>  Mon, 04 Mar 2013 12:00:00 +0200
0
" /\
  let lines := Py.replace "UNRELEASED" "unstable" None l0 :: l1
               :: Py.replace "UNRELEASED" "Snapshot version" None l2 :: rest in
  let c0 := count "UNRELEASED" l0 in
  let c2 := count "UNRELEASED" l2 in
  exists stale,
    snapshot_changelog content = Return (Os.writelines lines ++ stale)%string /\
    stale = Py.drop (String.length content - String.length stale) content /\
    String.length stale = 2 * c0 - 6 * c2 /\
    (c0 <= 3 * c2 -> snapshot_changelog content = Return (Os.writelines lines)).
Proof.
  intros l0 l1 l2 rest content. split; [reflexivity|].
  exact (snapshot_changelog_written content l0 l1 l2 rest eq_refl).
Defined.
